(** * Intcode interpreters of the 2019 notebooks (Day 02 and Day 05)

    A shallow embedding of the two [CPU] classes of the repository:
    the first interpreter of Day 02 (add, multiply, halt, with the
    noun/verb overrides) and the interpreter of Day 05 (parameter modes,
    input/output, jumps and comparisons).

    Python integers are unbounded and are modelled by [Z]; Python lists
    are modelled by [list Z] with Python's indexing rules (a negative
    index counts from the end); exceptions are modelled by an explicit
    result type; the [while True] loop is modelled with fuel. *)

From Stdlib Require Import ZArith Lia List Bool ZifyBool.
From stdpp Require Import base option list gmap.

Open Scope Z_scope.

(** ** Python layer: exceptions and list indexing *)

(** The exceptions the interpreters can meet.  [Halt] is the notebook's
    own exception class, the others are Python built-ins. *)
Inductive Exn : Set :=
| IndexError
| KeyError
| ValueError
| TypeError
| EOFError
| Halt.

(** A computation that either returns a value or raises. *)
Inductive Raises (A : Type) : Type :=
| Return (a : A)
| Raise (e : Exn).
Arguments Return {A} a.
Arguments Raise {A} e.

Definition bindR {A B} (m : Raises A) (k : A -> Raises B) : Raises B :=
  match m with
  | Return a => k a
  | Raise e => Raise e
  end.

Notation "'let*' x ':=' m 'in' k" := (bindR m (fun x => k))
  (at level 10, x name, m at level 100, k at level 200).

(** [mapR f l] evaluates [f] on the elements of [l] from left to right
    and stops at the first exception, as unpacking a generator does. *)
Fixpoint mapR {A B} (f : A -> Raises B) (l : list A) : Raises (list B) :=
  match l with
  | [] => Return []
  | x :: l' => let* y := f x in let* ys := mapR f l' in Return (y :: ys)
  end.

Abbreviation Memory := (list Z).

(** The list position a Python index denotes: [0 <= i < n] is itself,
    [-n <= i < 0] counts from the end, anything else is out of range. *)
Definition py_index (n : nat) (i : Z) : option nat :=
  if (0 <=? i) && (i <? Z.of_nat n) then Some (Z.to_nat i)
  else if (- Z.of_nat n <=? i) && (i <? 0) then Some (Z.to_nat (Z.of_nat n + i))
  else None.

(** [mem[i]] *)
Definition getitem (mem : Memory) (i : Z) : Raises Z :=
  match py_index (length mem) i with
  | Some k =>
      match mem !! k with
      | Some v => Return v
      | None => Raise IndexError
      end
  | None => Raise IndexError
  end.

(** [mem[i] = v] *)
Definition setitem (mem : Memory) (i : Z) (v : Z) : Raises Memory :=
  match py_index (length mem) i with
  | Some k => Return (<[k:=v]> mem)
  | None => Raise IndexError
  end.

(** A bound of a slice [mem[a:b]]: negative bounds count from the end,
    and every bound is clamped to the list. *)
Definition slice_bound (n : nat) (i : Z) : nat :=
  if i <? 0 then Z.to_nat (Z.max 0 (Z.of_nat n + i))
  else Z.to_nat (Z.min i (Z.of_nat n)).

(** [mem[a:b]]; never raises. *)
Definition getslice (mem : Memory) (a b : Z) : list Z :=
  let lo := slice_bound (length mem) a in
  let hi := slice_bound (length mem) b in
  take (hi - lo)%nat (drop lo mem).

(** [enumerate(l, start)] *)
Fixpoint enumerate {A} (start : Z) (l : list A) : list (Z * A) :=
  match l with
  | [] => []
  | x :: l' => (start, x) :: enumerate (start + 1) l'
  end.

(** [range(n)] as a list of integers. *)
Definition range (n : nat) : list Z := Z.of_nat <$> seq 0 n.

(** Values a Python callable of the instruction tables returns. *)
Inductive Value : Set :=
| VInt (z : Z)
| VBool (b : bool)
| VNone.

(** [int(v)] *)
Definition int_of (v : Value) : Raises Z :=
  match v with
  | VInt z => Return z
  | VBool b => Return (if b then 1 else 0)
  | VNone => Raise TypeError
  end.

(** Truth value of [v], as [if v] takes it. *)
Definition truthy (v : Value) : bool :=
  match v with
  | VInt z => negb (z =? 0)
  | VBool b => b
  | VNone => false
  end.

(** ** Day 05: the interpreter with parameter modes *)

Module Day05.

(** What lies outside the interpreter: the lines waiting on standard
    input (each given by the integer [int()] reads from it), the lines
    printed (each the arguments of one [print] call), and the [outputs]
    list the notebooks append to. *)
Record World : Set := mkWorld {
  stdin : list Z;
  stdout : list (list Z);
  outputs : list Z
}.

(** An effectful computation: it ends in a world whether it returns or
    raises. *)
Inductive Eff (A : Type) : Type :=
| Ok (a : A) (w : World)
| Err (e : Exn) (w : World).
Arguments Ok {A} a w.
Arguments Err {A} e w.

Definition lift {A} (r : Raises A) (w : World) : Eff A :=
  match r with
  | Return a => Ok a w
  | Raise e => Err e w
  end.

(** A Python callable applied to integer arguments. *)
Definition Func := list Z -> World -> Eff Value.

(** [operator.add] *)
Definition op_add : Func := fun args w =>
  match args with
  | [a; b] => Ok (VInt (a + b)) w
  | _ => Err TypeError w
  end.

(** [operator.mul] *)
Definition op_mul : Func := fun args w =>
  match args with
  | [a; b] => Ok (VInt (a * b)) w
  | _ => Err TypeError w
  end.

(** [operator.lt] *)
Definition op_lt : Func := fun args w =>
  match args with
  | [a; b] => Ok (VBool (a <? b)) w
  | _ => Err TypeError w
  end.

(** [operator.eq] *)
Definition op_eq : Func := fun args w =>
  match args with
  | [a; b] => Ok (VBool (a =? b)) w
  | _ => Err TypeError w
  end.

(** [bool] *)
Definition py_bool : Func := fun args w =>
  match args with
  | [] => Ok (VBool false) w
  | [a] => Ok (VBool (negb (a =? 0))) w
  | _ => Err TypeError w
  end.

(** [operator.not_] *)
Definition op_not : Func := fun args w =>
  match args with
  | [a] => Ok (VBool (a =? 0)) w
  | _ => Err TypeError w
  end.

(** [partial(input, "i> ")], as far as the loop of [execute] is
    concerned: the call takes the next line of standard input, raises
    [EOFError] when there is none, and never raises [Halt].  A line is
    given by the integer [int] reads from it; the prompt that [input]
    writes and a line that [int] rejects ([ValueError] at the store of
    the result) are outside this model.  The properties below use of
    this callable only that it never raises [Halt]; the turn of an input
    instruction is stated for [lambda: v], which the tables of the test
    cells put in its place. *)
Definition py_input : Func := fun args w =>
  match args with
  | [] =>
      match stdin w with
      | line :: rest => Ok (VInt line) (mkWorld rest (stdout w) (outputs w))
      | [] => Err EOFError w
      end
  | _ => Err TypeError w
  end.

(** [lambda: v] *)
Definition py_const (v : Z) : Func := fun args w =>
  match args with
  | [] => Ok (VInt v) w
  | _ => Err TypeError w
  end.

(** [print] *)
Definition py_print : Func := fun args w =>
  Ok VNone (mkWorld (stdin w) (stdout w ++ [args]) (outputs w)).

(** [outputs.append] *)
Definition outputs_append : Func := fun args w =>
  match args with
  | [a] => Ok VNone (mkWorld (stdin w) (stdout w) (outputs w ++ [a]))
  | _ => Err TypeError w
  end.

(** [Halt.halt] *)
Definition Halt_halt : Func := fun args w =>
  match args with
  | [] => Err Halt w
  | _ => Err TypeError w
  end.

(** [ParameterMode]: the two members of the enumeration. *)
Inductive ParameterMode : Set :=
| position
| immediate.

(** [ParameterMode(value)]: the member with that value, [ValueError]
    when there is none. *)
Definition ParameterMode_of (value : Z) : Raises ParameterMode :=
  if value =? 0 then Return position
  else if value =? 1 then Return immediate
  else Raise ValueError.

(** [mode.get(mem, arg)], that is [_getters[mode.value]]. *)
Definition get (mode : ParameterMode) (mem : Memory) (arg : Z) : Raises Z :=
  match mode with
  | position => getitem mem arg
  | immediate => Return arg
  end.

(** The class of an instruction object. *)
Inductive InstrClass : Set :=
| Plain
| Jump.

Record Instruction : Type := mkInstruction {
  cls : InstrClass;
  f : Func;
  arg_count : nat;
  output : bool
}.

Definition Instruction_ (f : Func) (arg_count : nat) (output : bool) :=
  mkInstruction Plain f arg_count output.
Definition JumpInstruction (f : Func) (arg_count : nat) :=
  mkInstruction Jump f arg_count false.

Record CPU : Set := mkCPU {
  memory : Memory;
  pos : Z
}.

Record BoundInstruction : Type := mkBound {
  instruction : Instruction;
  modes : list ParameterMode;
  offset : Z
}.

(** [Instruction.__call__] *)
Definition Instruction_call (instr : Instruction) (pos : Z) (args : list Z)
    (w : World) : Eff (Z * Value) :=
  let offset := Z.of_nat (arg_count instr) + (if output instr then 1 else 0) in
  match f instr args w with
  | Ok result w' => Ok (pos + 1 + offset, result) w'
  | Err e w' => Err e w'
  end.

(** [JumpInstruction.__call__] *)
Definition JumpInstruction_call (instr : Instruction) (pos : Z) (args : list Z)
    (w : World) : Eff (Z * Value) :=
  match args with
  | [] => Err ValueError w
  | _ =>
      let jmpargs := removelast args in
      let jump_to := List.last args 0 in
      match Instruction_call instr pos jmpargs w with
      | Ok (offset, result) w' =>
          Ok (if truthy result then jump_to else offset, result) w'
      | Err e w' => Err e w'
      end
  end.

(** [instr(pos, *args)], dispatched on the class of [instr]. *)
Definition call (instr : Instruction) (pos : Z) (args : list Z) (w : World)
    : Eff (Z * Value) :=
  match cls instr with
  | Plain => Instruction_call instr pos args w
  | Jump => JumpInstruction_call instr pos args w
  end.

(** [Instruction.bind] *)
Definition bind (instr : Instruction) (opcode : Z) (cpu : CPU)
    : Raises BoundInstruction :=
  let modes := opcode / 100 in
  let* ms := mapR (fun i => ParameterMode_of (modes / 10 ^ i mod 10))
                 (range (arg_count instr)) in
  Return (mkBound instr ms (pos cpu + 1)).

(** The generator [args] of [BoundInstruction.__call__], unpacked. *)
Definition bound_args (b : BoundInstruction) (mem : Memory) : Raises (list Z) :=
  mapR (fun '(i, param) => let* word := getitem mem i in get param mem word)
       (enumerate (offset b) (modes b)).

(** [BoundInstruction.__call__]: the new position and the memory as the
    call leaves it. *)
Definition BoundInstruction_call (b : BoundInstruction) (cpu : CPU) (w : World)
    : Eff (Z * Memory) :=
  let mem := memory cpu in
  let instr := instruction b in
  match bound_args b mem with
  | Raise e => Err e w
  | Return args =>
      match call instr (pos cpu) args w with
      | Err e w' => Err e w'
      | Ok (newpos, result) w' =>
          if output instr then
            lift (let* target := getitem mem (offset b + Z.of_nat (arg_count instr)) in
                  let* v := int_of result in
                  let* mem' := setitem mem target v in
                  Return (newpos, mem')) w'
          else Ok (newpos, mem) w'
      end
  end.

(** [CPU.__getitem__] *)
Definition CPU_getitem (opcodes : gmap Z Instruction) (cpu : CPU) (opcode : Z)
    : Raises BoundInstruction :=
  match opcodes !! (opcode mod 100) with
  | Some instr => bind instr opcode cpu
  | None => Raise KeyError
  end.

(** [CPU.reset] *)
Definition reset (memory : option Memory) : CPU :=
  let memory := match memory with None => [] | Some m => m end in
  mkCPU memory 0.

(** One turn of the loop of [CPU.execute]:
    [self.pos = self[mem[self.pos]]()]. *)
Definition step (opcodes : gmap Z Instruction) (cpu : CPU) (w : World) : Eff CPU :=
  match (let* opcode := getitem (memory cpu) (pos cpu) in
         CPU_getitem opcodes cpu opcode) with
  | Raise e => Err e w
  | Return b =>
      match BoundInstruction_call b cpu w with
      | Ok (newpos, mem') w' => Ok (mkCPU mem' newpos) w'
      | Err e w' => Err e w'
      end
  end.

(** How a call of [CPU.execute] ends: it returns (the loop caught
    [Halt]), an exception leaves it, or the fuel of the model ran out
    while the loop was still turning. *)
Inductive Outcome : Set :=
| Returned (cpu : CPU) (w : World)
| Raised (e : Exn) (cpu : CPU) (w : World)
| OutOfFuel (cpu : CPU) (w : World).

(** The [try: while True: ... except Halt: return] of [CPU.execute]. *)
Fixpoint run (opcodes : gmap Z Instruction) (fuel : nat) (cpu : CPU) (w : World)
    : Outcome :=
  match fuel with
  | O => OutOfFuel cpu w
  | S fuel' =>
      match step opcodes cpu w with
      | Ok cpu' w' => run opcodes fuel' cpu' w'
      | Err Halt w' => Returned cpu w'
      | Err e w' => Raised e cpu w'
      end
  end.

(** [CPU(opcodes).execute(memory)] *)
Definition execute (opcodes : gmap Z Instruction) (fuel : nat) (memory : Memory)
    (w : World) : Outcome :=
  run opcodes fuel (reset (Some memory)) w.

Definition base_opcodes : gmap Z Instruction :=
  list_to_map [
    (1, Instruction_ op_add 2 true);
    (2, Instruction_ op_mul 2 true);
    (3, Instruction_ py_input 0 true);
    (4, Instruction_ py_print 1 false);
    (99, Instruction_ Halt_halt 0 false)
  ].

(** [{**base_opcodes, 5: ..., 6: ..., 7: ..., 8: ...}] *)
Definition jump_opcodes : gmap Z Instruction :=
  <[8 := Instruction_ op_eq 2 true]>
  (<[7 := Instruction_ op_lt 2 true]>
  (<[6 := JumpInstruction op_not 2]>
  (<[5 := JumpInstruction py_bool 2]> base_opcodes))).

(** The table of [test_jumpcodes] for the input [inp]. *)
Definition test_opcodes (inp : Z) : gmap Z Instruction :=
  <[4 := Instruction_ outputs_append 1 false]>
  (<[3 := Instruction_ (py_const inp) 0 true]> jump_opcodes).

Definition test_mem : Memory := [1; 9; 10; 3; 2; 3; 11; 0; 99; 30; 40; 50].

Definition empty_world : World := mkWorld [] [] [].

End Day05.

(** ** Day 02: the first interpreter, with the noun and verb overrides *)

Module Day02.

(** Lists are objects: a variable holds a reference to one, and two
    variables may hold the same reference.  The store keeps every list
    ever made, a reference being its rank in the store. *)
Abbreviation loc := nat.
Abbreviation Heap := (list (list Z)).

(** The list a reference denotes. *)
Definition deref (h : Heap) (l : loc) : Memory := default [] (h !! l).

(** A new list object with the given contents. *)
Definition alloc (h : Heap) (contents : Memory) : Heap * loc :=
  (h ++ [contents], length h).

(** [memory[i]] through the reference [memory]. *)
Definition load (h : Heap) (memory : loc) (i : Z) : Raises Z :=
  getitem (deref h memory) i.

(** [memory[i] = v] through the reference [memory]. *)
Definition store (h : Heap) (memory : loc) (i : Z) (v : Z) : Raises Heap :=
  let* mem' := setitem (deref h memory) i v in
  Return (<[memory := mem']> h).

(** A Python callable applied to integer arguments. *)
Definition Func := list Z -> Raises Z.

(** [operator.add] *)
Definition op_add : Func := fun args =>
  match args with
  | [a; b] => Return (a + b)
  | _ => Raise TypeError
  end.

(** [operator.mul] *)
Definition op_mul : Func := fun args =>
  match args with
  | [a; b] => Return (a * b)
  | _ => Raise TypeError
  end.

(** [Halt.halt] *)
Definition Halt_halt : Func := fun args =>
  match args with
  | [] => Raise Halt
  | _ => Raise TypeError
  end.

Record Instruction : Type := mkInstruction {
  f : Func;
  paramater_count : nat
}.

(** [Instruction.__call__] *)
Definition Instruction_call (instr : Instruction) (h : Heap) (memory : loc)
    (parameters : list Z) : Raises Heap :=
  match parameters with
  | [] => let* _r := f instr [] in Return h
  | _ =>
      let inputs := removelast parameters in
      let output := List.last parameters 0 in
      let* vals := mapR (fun addr => load h memory addr) inputs in
      let* v := f instr vals in
      store h memory output v
  end.

(** The [CPU] object: its [memory] attribute refers to a list. *)
Record CPU : Set := mkCPU {
  memory : loc;
  pos : Z
}.

(** The class attribute [CPU.opcodes]. *)
Definition opcodes : gmap Z Instruction :=
  list_to_map [
    (1, mkInstruction op_add 3);
    (2, mkInstruction op_mul 3);
    (99, mkInstruction Halt_halt 0)
  ].

(** [CPU.reset]: [self.memory] becomes a new list, a copy of the
    argument. *)
Definition reset (h : Heap) (memory : option loc) : Heap * CPU :=
  let '(h1, src) :=
    match memory with
    | None => alloc h []
    | Some l => (h, l)
    end in
  let '(h2, copy) := alloc h1 (deref h1 src) in
  (h2, mkCPU copy 0).

(** One turn of the loop of [CPU.execute]. *)
Definition step (h : Heap) (cpu : CPU) : Raises (Heap * CPU) :=
  let memory := memory cpu in
  let* opcode := load h memory (pos cpu) in
  match opcodes !! opcode with
  | None => Raise KeyError
  | Some op =>
      let paramcount := Z.of_nat (paramater_count op) in
      let parameters :=
        getslice (deref h memory) (pos cpu + 1) (pos cpu + 1 + paramcount) in
      let* h' := Instruction_call op h memory parameters in
      Return (h', mkCPU memory (pos cpu + 1 + paramcount))
  end.

(** How a call of [CPU.execute] ends. *)
Inductive Outcome : Set :=
| Returned (result : Z)
| Raised (e : Exn)
| OutOfFuel.

(** The [try: while True: ... except Halt: return memory[0]] of
    [CPU.execute]. *)
Fixpoint run (fuel : nat) (h : Heap) (cpu : CPU) : Heap * CPU * Outcome :=
  match fuel with
  | O => (h, cpu, OutOfFuel)
  | S fuel' =>
      match step h cpu with
      | Return (h', cpu') => run fuel' h' cpu'
      | Raise Halt =>
          match load h (memory cpu) 0 with
          | Return result => (h, cpu, Returned result)
          | Raise e => (h, cpu, Raised e)
          end
      | Raise e => (h, cpu, Raised e)
      end
  end.

(** [memory[i] = v] when [v] is not [None]. *)
Definition override (h : Heap) (memory : loc) (i : Z) (v : option Z)
    : Raises Heap :=
  match v with
  | None => Return h
  | Some v => store h memory i v
  end.

(** [cpu.execute(memory, noun, verb)]: the store and the [CPU] object as
    the call leaves them, and how it ended.  The [CPU] object the call
    is made on does not matter, since [reset] assigns both of its
    attributes; it is an argument all the same, as it is in the code. *)
Definition execute (fuel : nat) (h : Heap) (self : CPU) (memory : loc)
    (noun verb : option Z) : Heap * CPU * Outcome :=
  let '(h0, self) := reset h (Some memory) in
  let memory := Day02.memory self in
  match override h0 memory 1 noun with
  | Raise e => (h0, self, Raised e)
  | Return h1 =>
      match override h1 memory 2 verb with
      | Raise e => (h1, self, Raised e)
      | Return h2 => run fuel h2 self
      end
  end.

Definition test : Memory := [1; 9; 10; 3; 2; 3; 11; 0; 99; 30; 40; 50].

End Day02.

(** ** Day 05: the programs of the test cell *)

Module Day05Tests.

(** The programs of [tests], in the order of the cell. *)
Definition eq8_position : list Z := [3; 9; 8; 9; 10; 9; 4; 9; 99; -1; 8].
Definition lt8_position : list Z := [3; 9; 7; 9; 10; 9; 4; 9; 99; -1; 8].
Definition eq8_immediate : list Z := [3; 3; 1108; -1; 8; 3; 4; 3; 99].
Definition lt8_immediate : list Z := [3; 3; 1107; -1; 8; 3; 4; 3; 99].
Definition cmp8 : list Z :=
  [3; 21; 1008; 21; 8; 20; 1005; 20; 22; 107; 8; 21; 20; 1006; 20; 31;
   1106; 0; 36; 98; 0; 0; 1002; 21; 125; 20; 4; 20; 1105; 1; 46; 104;
   999; 1105; 1; 46; 1101; 1000; 1; 20; 4; 20; 1105; 1; 46; 98; 99].

End Day05Tests.

(** ** Day 02: the search of part 2 *)

Module Day02Part2.

Import Day02.

(** [product(range(n), repeat=2)] *)
Definition product (n : nat) : list (Z * Z) :=
  noun ← range n; verb ← range n; [(noun, verb)].

(** How a call of [bruteforce] ends: it returns a number, an exception
    of [execute] leaves it, [noun] is not bound at the [return] (the
    loop had nothing to go through), or the fuel of the model ran out
    inside a call of [execute]. *)
Inductive Found : Set :=
| Answer (z : Z)
| Failed (e : Exn)
| Unbound
| Unfinished.

(** The [for] loop of [bruteforce], with [noun, verb] the pair at hand
    and [rest] the pairs still to come. *)
Fixpoint bruteforce_loop (fuel : nat) (target : Z) (h : Heap) (cpu : CPU)
    (memory : loc) (noun verb : Z) (rest : list (Z * Z)) : Heap * Found :=
  match execute fuel h cpu memory (Some noun) (Some verb) with
  | (h', cpu', Returned result) =>
      if result =? target then (h', Answer (100 * noun + verb))
      else
        match rest with
        | [] => (h', Answer (100 * noun + verb))
        | (noun', verb') :: rest' =>
            bruteforce_loop fuel target h' cpu' memory noun' verb' rest'
        end
  | (h', _, Raised e) => (h', Failed e)
  | (h', _, OutOfFuel) => (h', Unfinished)
  end.

(** [bruteforce(target, memory)].  [cpu = CPU()] makes an object whose
    attributes are not set yet; [execute] sets both before it reads
    them, so the values given here are never read. *)
Definition bruteforce (fuel : nat) (target : Z) (h : Heap) (memory : loc)
    : Heap * Found :=
  let cpu := mkCPU 0 0 in
  match product 100 with
  | [] => (h, Unbound)
  | (noun, verb) :: rest => bruteforce_loop fuel target h cpu memory noun verb rest
  end.

End Day02Part2.

(** ** Day 02: the cell that looks for self-modifying code *)

Module Day02Check.

(** [memory[3::4]] *)
Fixpoint every_fourth_from_3 (memory : list Z) : list Z :=
  match memory with
  | _ :: _ :: _ :: target :: rest => target :: every_fourth_from_3 rest
  | _ => []
  end.

(** The three messages of the cell. *)
Inductive Verdict : Set :=
| TargetsOpcodes
| TargetsLaterParameters
| NotSelfModifying.

(** The [if ... elif ... else] of the cell that looks for self-modifying
    code, with the message it prints as its value. *)
Definition self_modifying (memory : list Z) : Verdict :=
  if existsb (fun target => negb (target =? 0) && (target mod 4 =? 0))
       (every_fourth_from_3 memory)
  then TargetsOpcodes
  else if existsb (fun '(i, target) =>
                     negb (target mod 4 =? 0) && (i * 4 + 3 <? target))
            (enumerate 0 (every_fourth_from_3 memory))
  then TargetsLaterParameters
  else NotSelfModifying.

End Day02Check.

(** ** Vocabulary of the statements *)

(** The callable of [instr] can raise [Halt]. *)
Definition raises_Halt (instr : Day05.Instruction) : Prop :=
  exists args w w', Day05.f instr args w = Day05.Err Halt w'.

(** In the table, only opcode 99 holds a callable that can raise [Halt]. *)
Definition halt_only_99 (opcodes : gmap Z Day05.Instruction) : Prop :=
  forall k instr, opcodes !! k = Some instr -> raises_Halt instr -> k = 99.

(** What a caller can see of a call of [Day02.CPU.execute]: the contents
    of the memory of the [CPU] object, its counter, and how the call
    ended. *)
Definition observe (r : Day02.Heap * Day02.CPU * Day02.Outcome)
    : list Z * Z * Day02.Outcome :=
  let '(h, cpu, o) := r in
  (Day02.deref h (Day02.memory cpu), Day02.pos cpu, o).

(** Two configurations whose [CPU] objects refer to allocated lists of
    the same contents and have the same counter. *)
Definition same_view (h1 : Day02.Heap) (c1 : Day02.CPU)
    (h2 : Day02.Heap) (c2 : Day02.CPU) : Prop :=
  (Day02.memory c1 < length h1)%nat /\
  (Day02.memory c2 < length h2)%nat /\
  Day02.deref h1 (Day02.memory c1) = Day02.deref h2 (Day02.memory c2) /\
  Day02.pos c1 = Day02.pos c2.

(** The tests on the input of a test program, under names that the
    evaluation of a turn leaves folded. *)
Definition held_ltb : Z -> Z -> bool := Z.ltb.
Definition held_eqb : Z -> Z -> bool := Z.eqb.

(** The [CPU] of Day 05 that holds what the [CPU] object of Day 02
    refers to. *)
Definition by_value (h : Day02.Heap) (cpu : Day02.CPU) : Day05.CPU :=
  Day05.mkCPU (Day02.deref h (Day02.memory cpu)) (Day02.pos cpu).

(** How the run of Day 02 on [image] with the overrides [noun] and
    [verb] ends. *)
Definition ends (fuel : nat) (image : list Z) (p : Z * Z) : Day02.Outcome :=
  snd (Day02.execute fuel [image] (Day02.mkCPU 0 0) 0%nat (Some (fst p)) (Some (snd p))).

(** From the counter on, the memory of the [CPU] object holds what
    [image] holds. *)
Definition untouched_from (image : list Z) (h : Day02.Heap) (cpu : Day02.CPU)
    : Prop :=
  forall j : nat,
    (Z.to_nat (Day02.pos cpu) <= j)%nat ->
    Day02.deref h (Day02.memory cpu) !! j = image !! j.

(** [mem] with [v], when it is not [None], written in cell [i], where
    [mem] has that cell. *)
Definition patch (i : nat) (v : option Z) (mem : list Z) : list Z :=
  match v with
  | None => mem
  | Some v => <[i:=v]> mem
  end.

(** The image with the overrides written in. *)
Definition patched (noun verb : option Z) (image : list Z) : list Z :=
  patch 2 verb (patch 1 noun image).

(** * Properties *)

(** ** Python indexing *)

Section Indexing.

Implicit Types (mem : Memory) (i v : Z).

Ltac index_cases :=
  unfold py_index in *;
  repeat match goal with
    | H : context [?a <=? ?b] |- _ => destruct (Z.leb_spec a b)
    | H : context [?a <? ?b] |- _ => destruct (Z.ltb_spec a b)
    | |- context [?a <=? ?b] => destruct (Z.leb_spec a b)
    | |- context [?a <? ?b] => destruct (Z.ltb_spec a b)
    end;
  simpl in *; try congruence; try lia.

Lemma py_index_lt n i k : py_index n i = Some k -> (k < n)%nat.
Proof. intros H. index_cases; injection H as <-; lia. Qed.

Lemma py_index_nonneg n i :
  0 <= i < Z.of_nat n -> py_index n i = Some (Z.to_nat i).
Proof. intros H. index_cases. Qed.

Lemma py_index_negative n i :
  - Z.of_nat n <= i < 0 -> py_index n i = Some (Z.to_nat (Z.of_nat n + i)).
Proof. intros H. index_cases. Qed.

Lemma py_index_outside n i :
  i < - Z.of_nat n \/ Z.of_nat n <= i -> py_index n i = None.
Proof. intros H. index_cases. Qed.

Lemma py_index_Some_inv n i k :
  py_index n i = Some k -> - Z.of_nat n <= i < Z.of_nat n.
Proof.
  intros H.
  destruct (Z_lt_dec i (- Z.of_nat n)) as [Hl|Hl];
    [rewrite py_index_outside in H by lia; discriminate|].
  destruct (Z_le_dec (Z.of_nat n) i) as [Hr|Hr];
    [rewrite py_index_outside in H by lia; discriminate|].
  lia.
Qed.

Lemma getitem_outside mem i :
  i < - Z.of_nat (length mem) \/ Z.of_nat (length mem) <= i ->
  getitem mem i = Raise IndexError.
Proof. intros H. unfold getitem. now rewrite py_index_outside. Qed.

Lemma setitem_outside mem i v :
  i < - Z.of_nat (length mem) \/ Z.of_nat (length mem) <= i ->
  setitem mem i v = Raise IndexError.
Proof. intros H. unfold setitem. now rewrite py_index_outside. Qed.

Lemma getitem_inside mem i :
  - Z.of_nat (length mem) <= i < Z.of_nat (length mem) ->
  exists v, getitem mem i = Return v.
Proof.
  intros H. unfold getitem.
  destruct (py_index (length mem) i) as [k|] eqn:E.
  - apply py_index_lt in E. apply lookup_lt_is_Some_2 in E as [v ->]. eauto.
  - destruct (Z_lt_dec i 0).
    + rewrite py_index_negative in E by lia. discriminate.
    + rewrite py_index_nonneg in E by lia. discriminate.
Qed.

Lemma setitem_inside mem i v :
  - Z.of_nat (length mem) <= i < Z.of_nat (length mem) ->
  exists mem', setitem mem i v = Return mem'.
Proof.
  intros H. unfold setitem.
  destruct (py_index (length mem) i) as [k|] eqn:E; [eauto|].
  destruct (Z_lt_dec i 0).
  - rewrite py_index_negative in E by lia. discriminate.
  - rewrite py_index_nonneg in E by lia. discriminate.
Qed.

Lemma getitem_Raise mem i e : getitem mem i = Raise e -> e = IndexError.
Proof.
  unfold getitem. intros H.
  destruct (py_index _ _); [destruct (mem !! _)|]; congruence.
Qed.

Lemma getitem_Return_range mem i v :
  getitem mem i = Return v ->
  - Z.of_nat (length mem) <= i < Z.of_nat (length mem).
Proof.
  unfold getitem. intros H.
  destruct (py_index _ _) eqn:E; [|discriminate].
  eapply py_index_Some_inv; eauto.
Qed.

Lemma setitem_Raise mem i v e : setitem mem i v = Raise e -> e = IndexError.
Proof. unfold setitem. destruct (py_index _ _); congruence. Qed.

Lemma setitem_length mem i v mem' :
  setitem mem i v = Return mem' -> length mem' = length mem.
Proof.
  unfold setitem. destruct (py_index _ _); [|discriminate].
  intros [= <-]. apply length_insert.
Qed.

Lemma getitem_setitem mem i v mem' :
  setitem mem i v = Return mem' -> getitem mem' i = Return v.
Proof.
  intros H. pose proof (setitem_length _ _ _ _ H) as Hlen.
  unfold setitem in H. unfold getitem. rewrite Hlen.
  destruct (py_index _ _) as [k|] eqn:E; [|discriminate].
  injection H as <-. apply py_index_lt in E.
  now rewrite list_lookup_insert_eq.
Qed.

End Indexing.

(** ** Sequencing *)

Section Sequencing.

Context {A B : Type} (g : A -> Raises B).

Lemma mapR_length l ys : mapR g l = Return ys -> length ys = length l.
Proof.
  revert ys. induction l as [|x l IH]; simpl; intros ys H.
  - now injection H as <-.
  - destruct (g x); [|discriminate]. simpl in H.
    destruct (mapR g l); [|discriminate]. simpl in H.
    injection H as <-. simpl. f_equal. now apply IH.
Qed.

Lemma mapR_lookup l ys k x :
  mapR g l = Return ys -> l !! k = Some x ->
  exists y, ys !! k = Some y /\ g x = Return y.
Proof.
  revert ys k. induction l as [|x' l IH]; simpl; intros ys k H Hk.
  - discriminate.
  - destruct (g x') as [y'|] eqn:Ex; [|discriminate]. simpl in H.
    destruct (mapR g l) as [ys'|]; [|discriminate]. simpl in H.
    injection H as <-. destruct k as [|k]; simpl in *.
    + injection Hk as <-. eauto.
    + eapply IH; eauto.
Qed.

Lemma mapR_Raise l e :
  mapR g l = Raise e -> exists x, In x l /\ g x = Raise e.
Proof.
  induction l as [|x l IH]; simpl; intros H.
  - discriminate.
  - destruct (g x) as [y|e'] eqn:Ex; simpl in H.
    + destruct (mapR g l) as [ys|e'']; simpl in H; [discriminate|].
      injection H as <-. destruct IH as (x0 & Hin & Hx0); eauto.
    + injection H as <-. eauto.
Qed.

Lemma mapR_Return_all l ys x :
  mapR g l = Return ys -> In x l -> exists y, g x = Return y.
Proof.
  revert ys. induction l as [|x' l IH]; simpl; intros ys H Hin.
  - contradiction.
  - destruct (g x') as [y'|] eqn:Ex; [|discriminate]. simpl in H.
    destruct (mapR g l) as [ys'|]; [|discriminate].
    destruct Hin as [<-|Hin]; eauto.
Qed.

Lemma mapR_some_Raise l x e0 :
  In x l -> g x = Raise e0 -> exists e x', mapR g l = Raise e /\ g x' = Raise e.
Proof.
  intros Hin Hx. destruct (mapR g l) as [ys|e] eqn:E.
  - destruct (mapR_Return_all _ _ _ E Hin) as [y Hy]. congruence.
  - destruct (mapR_Raise _ _ E) as (x' & _ & Hx'). eauto.
Qed.

End Sequencing.

Lemma range_lookup n i : (i < n)%nat -> range n !! i = Some (Z.of_nat i).
Proof.
  intros H. unfold range. rewrite list_lookup_fmap.
  now rewrite lookup_seq_lt.
Qed.

Lemma range_length n : length (range n) = n.
Proof. unfold range. now rewrite length_fmap, length_seq. Qed.

Lemma range_In n x : In x (range n) <-> exists i, (i < n)%nat /\ x = Z.of_nat i.
Proof.
  unfold range. rewrite <- list_elem_of_In, list_elem_of_fmap. split.
  - intros (i & -> & Hi). apply elem_of_seq in Hi. exists i. split; [lia|done].
  - intros (i & Hi & ->). exists i. split; [done|]. apply elem_of_seq. lia.
Qed.

(** ** Day 05: one turn of the loop, taken apart *)

Section Day05Step.

Import Day05.

Variable opcodes : gmap Z Instruction.

Implicit Types (cpu : CPU) (w : World) (instr : Instruction).

Lemma bind_Return instr opcode cpu b :
  bind instr opcode cpu = Return b ->
  instruction b = instr /\ offset b = pos cpu + 1 /\
  mapR (fun i => ParameterMode_of (opcode / 100 / 10 ^ i mod 10))
       (range (arg_count instr)) = Return (modes b).
Proof.
  unfold bind. destruct (mapR _ _) as [ms|]; simpl; [|discriminate].
  now intros [= <-].
Qed.

(** What a turn that completes has done, in the order the code does it. *)
Lemma step_Ok cpu w cpu' w' :
  step opcodes cpu w = Ok cpu' w' ->
  exists opcode instr b args result,
    getitem (memory cpu) (pos cpu) = Return opcode /\
    opcodes !! (opcode mod 100) = Some instr /\
    bind instr opcode cpu = Return b /\
    bound_args b (memory cpu) = Return args /\
    call instr (pos cpu) args w = Ok (pos cpu', result) w' /\
    if output instr then
      exists target v,
        getitem (memory cpu) (pos cpu + 1 + Z.of_nat (arg_count instr))
          = Return target /\
        int_of result = Return v /\
        setitem (memory cpu) target v = Return (memory cpu')
    else memory cpu' = memory cpu.
Proof.
  unfold step. intros H.
  destruct (getitem (memory cpu) (pos cpu)) as [opcode|] eqn:Hop; cbn [bindR lift] in H;
    [|discriminate].
  unfold CPU_getitem in H.
  destruct (opcodes !! (opcode mod 100)) as [instr|] eqn:Hin; [|discriminate].
  destruct (bind instr opcode cpu) as [b|] eqn:Hb; [|discriminate].
  destruct (bind_Return _ _ _ _ Hb) as (Hi & Ho & _).
  unfold BoundInstruction_call in H. rewrite Hi, Ho in H.
  destruct (bound_args b (memory cpu)) as [args|] eqn:Ha; [|discriminate].
  destruct (call instr (pos cpu) args w) as [[newpos result] w1|] eqn:Hc;
    [|discriminate].
  exists opcode, instr, b, args, result.
  destruct (output instr) eqn:Hout.
  - destruct (getitem (memory cpu) (pos cpu + 1 + Z.of_nat (arg_count instr)))
      as [target|] eqn:Ht; cbn [bindR lift] in H; [|discriminate].
    destruct (int_of result) as [v|] eqn:Hv; cbn [bindR lift] in H; [|discriminate].
    destruct (setitem (memory cpu) target v) as [mem'|] eqn:Hs; cbn [bindR lift] in H;
      [|discriminate].
    injection H as <- <-. simpl. repeat split; eauto.
  - injection H as <- <-. simpl. repeat split; eauto.
Qed.

(** A turn raises exactly what its first failing stage raises. *)
Lemma step_fetch_Raise cpu w e :
  getitem (memory cpu) (pos cpu) = Raise e -> step opcodes cpu w = Err e w.
Proof. unfold step. now intros ->. Qed.

Lemma step_decode_Raise cpu w opcode e :
  getitem (memory cpu) (pos cpu) = Return opcode ->
  CPU_getitem opcodes cpu opcode = Raise e ->
  step opcodes cpu w = Err e w.
Proof. unfold step. intros -> . simpl. now intros ->. Qed.

Lemma step_args_Raise cpu w opcode b e :
  getitem (memory cpu) (pos cpu) = Return opcode ->
  CPU_getitem opcodes cpu opcode = Return b ->
  bound_args b (memory cpu) = Raise e ->
  step opcodes cpu w = Err e w.
Proof.
  unfold step. intros ->. simpl. intros ->.
  unfold BoundInstruction_call. now intros ->.
Qed.

(** [run] with more fuel: a call that has ended keeps its outcome. *)
Lemma run_more_fuel fuel k cpu w :
  (forall c' w', run opcodes fuel cpu w <> OutOfFuel c' w') ->
  run opcodes (fuel + k) cpu w = run opcodes fuel cpu w.
Proof.
  revert cpu w. induction fuel as [|fuel IH]; intros cpu w H.
  - exfalso. eapply H. reflexivity.
  - simpl in *. destruct (step opcodes cpu w) as [cpu' w'|e w']; [|reflexivity].
    now apply IH.
Qed.

(** A call that returned stopped on a [Halt] raised by the callable of
    the instruction under the counter. *)
Lemma run_Returned fuel cpu w cpu' w' :
  run opcodes fuel cpu w = Returned cpu' w' ->
  exists w0, step opcodes cpu' w0 = Err Halt w'.
Proof.
  revert cpu w. induction fuel as [|fuel IH]; intros cpu w H; simpl in H.
  - discriminate.
  - destruct (step opcodes cpu w) as [c1 w1|e w1] eqn:Hs.
    + eapply IH; eauto.
    + destruct e; try discriminate. injection H as <- <-. eauto.
Qed.

End Day05Step.

(** ** Day 05: decoding the opcode word *)

Section Day05Decode.

Import Day05.

Variable opcodes : gmap Z Instruction.

Implicit Types (cpu : CPU) (w : World) (instr : Instruction).

Lemma ParameterMode_of_Raise d e : ParameterMode_of d = Raise e -> e = ValueError.
Proof.
  unfold ParameterMode_of. destruct (d =? 0); [discriminate|].
  destruct (d =? 1); [discriminate|]. congruence.
Qed.

Lemma ParameterMode_of_bad d :
  d <> 0 -> d <> 1 -> ParameterMode_of d = Raise ValueError.
Proof.
  intros H0 H1. unfold ParameterMode_of.
  destruct (Z.eqb_spec d 0); [contradiction|].
  destruct (Z.eqb_spec d 1); [contradiction|]. reflexivity.
Qed.

(** C3: the instruction bound to a fetched word [opcode] is the entry of
    the table under [opcode mod 100]; it has one mode per operand, and
    the mode of operand [i] is read off the decimal digit
    [(opcode / 100) / 10^i mod 10]: digit 0 is position mode, digit 1 is
    immediate mode. *)
Theorem decode_opcode_word cpu opcode b :
  CPU_getitem opcodes cpu opcode = Return b ->
  opcodes !! (opcode mod 100) = Some (instruction b) /\
  length (modes b) = arg_count (instruction b) /\
  forall i, (i < arg_count (instruction b))%nat ->
    let digit := (opcode / 100) / 10 ^ Z.of_nat i mod 10 in
    (digit = 0 /\ modes b !! i = Some position) \/
    (digit = 1 /\ modes b !! i = Some immediate).
Proof.
  unfold CPU_getitem. intros H.
  destruct (opcodes !! (opcode mod 100)) as [instr|] eqn:Hin; [|discriminate].
  destruct (bind_Return _ _ _ _ H) as (-> & _ & Hm).
  split; [reflexivity|]. split.
  - apply mapR_length in Hm. now rewrite range_length in Hm.
  - intros i Hi. cbv zeta.
    destruct (mapR_lookup _ _ _ _ _ Hm (range_lookup _ _ Hi)) as (m & Hl & Hd).
    set (digit := opcode / 100 / 10 ^ Z.of_nat i mod 10) in *.
    unfold ParameterMode_of in Hd.
    destruct (Z.eqb_spec digit 0) as [E0|E0]; [left; split; congruence|].
    destruct (Z.eqb_spec digit 1) as [E1|E1]; [right; split; congruence|].
    discriminate.
Qed.

Lemma bind_bad_digit instr opcode cpu i :
  (i < arg_count instr)%nat ->
  opcode / 100 / 10 ^ Z.of_nat i mod 10 <> 0 ->
  opcode / 100 / 10 ^ Z.of_nat i mod 10 <> 1 ->
  bind instr opcode cpu = Raise ValueError.
Proof.
  intros Hi H0 H1. unfold bind.
  destruct (mapR_some_Raise
              (fun i => ParameterMode_of (opcode / 100 / 10 ^ i mod 10))
              (range (arg_count instr)) (Z.of_nat i) ValueError)
    as (e & x' & -> & Hx').
  - apply range_In. eauto.
  - now apply ParameterMode_of_bad.
  - apply ParameterMode_of_Raise in Hx'. now subst.
Qed.

(** C8: when the word under the counter selects an instruction of the
    table and one of the mode digits decoded for its operands is neither
    0 nor 1, the turn raises [ValueError] without touching the world,
    and [execute] lets the exception out. *)
Theorem malformed_mode_is_fatal cpu w opcode instr i fuel :
  getitem (memory cpu) (pos cpu) = Return opcode ->
  opcodes !! (opcode mod 100) = Some instr ->
  (i < arg_count instr)%nat ->
  opcode / 100 / 10 ^ Z.of_nat i mod 10 <> 0 ->
  opcode / 100 / 10 ^ Z.of_nat i mod 10 <> 1 ->
  step opcodes cpu w = Err ValueError w /\
  run opcodes (S fuel) cpu w = Raised ValueError cpu w.
Proof.
  intros Hop Hin Hi H0 H1.
  assert (Hs : step opcodes cpu w = Err ValueError w).
  { eapply step_decode_Raise; [exact Hop|].
    unfold CPU_getitem. rewrite Hin. eapply bind_bad_digit; eauto. }
  split; [exact Hs|]. simpl. now rewrite Hs.
Qed.

End Day05Decode.

(** ** Day 05: how a call of [execute] ends *)

Section Day05Ending.

Import Day05.

Variable opcodes : gmap Z Instruction.

Implicit Types (cpu : CPU) (w : World) (instr : Instruction).

Lemma bind_Raise instr opcode cpu e :
  bind instr opcode cpu = Raise e -> e = ValueError.
Proof.
  unfold bind. destruct (mapR _ _) as [ms|e'] eqn:E; simpl; [discriminate|].
  intros [= <-]. apply mapR_Raise in E as (x & _ & Hx).
  eapply ParameterMode_of_Raise; eauto.
Qed.

Lemma bound_args_Raise b mem e : bound_args b mem = Raise e -> e = IndexError.
Proof.
  unfold bound_args. intros H. apply mapR_Raise in H as ([i param] & _ & Hx).
  destruct (getitem mem i) as [word|e'] eqn:E; simpl in Hx.
  - destruct param; simpl in Hx; [|discriminate].
    eapply getitem_Raise; eauto.
  - injection Hx as <-. eapply getitem_Raise; eauto.
Qed.

Lemma call_Err instr p args w e w' :
  call instr p args w = Err e w' ->
  e = ValueError \/ exists args', f instr args' w = Err e w'.
Proof.
  unfold call, JumpInstruction_call, Instruction_call.
  destruct (cls instr).
  - destruct (f instr args w) eqn:E; [discriminate|]. intros [= <- <-]. eauto.
  - destruct args as [|a args]; [intros [= <- <-]; now left|].
    destruct (f instr (removelast (a :: args)) w) eqn:E; [discriminate|].
    intros [= <- <-]. eauto.
Qed.

(** An exception leaving a turn is one of the interpreter's own, or it
    was raised by the callable of the instruction under the counter. *)
Lemma step_Err cpu w e w' :
  step opcodes cpu w = Err e w' ->
  (e = IndexError \/ e = KeyError \/ e = ValueError \/ e = TypeError) \/
  exists opcode instr args,
    getitem (memory cpu) (pos cpu) = Return opcode /\
    opcodes !! (opcode mod 100) = Some instr /\
    f instr args w = Err e w'.
Proof.
  unfold step. intros H.
  destruct (getitem (memory cpu) (pos cpu)) as [opcode|e0] eqn:Hop;
    cbn [bindR] in H.
  2:{ injection H as <- <-. apply getitem_Raise in Hop. auto. }
  unfold CPU_getitem in H.
  destruct (opcodes !! (opcode mod 100)) as [instr|] eqn:Hin.
  2:{ injection H as <- <-. auto. }
  destruct (bind instr opcode cpu) as [b|e0] eqn:Hb.
  2:{ injection H as <- <-. apply bind_Raise in Hb. auto. }
  destruct (bind_Return _ _ _ _ Hb) as (Hi & Ho & _).
  unfold BoundInstruction_call in H. rewrite Hi in H.
  destruct (bound_args b (memory cpu)) as [args|e0] eqn:Ha.
  2:{ injection H as <- <-. apply bound_args_Raise in Ha. auto. }
  destruct (call instr (pos cpu) args w) as [[newpos result] w1|e0 w1] eqn:Hc.
  2:{ injection H as <- <-. apply call_Err in Hc as [->|[args' Hf]]; [auto|].
      right. eauto 6. }
  destruct (output instr); [|discriminate].
  destruct (getitem (memory cpu) (offset b + Z.of_nat (arg_count instr)))
    as [target|e0] eqn:Ht; cbn [bindR lift] in H.
  2:{ injection H as <- <-. apply getitem_Raise in Ht. auto. }
  destruct (int_of result) as [v|e0] eqn:Hv; cbn [bindR lift] in H.
  2:{ injection H as <- <-. destruct result; simpl in Hv; try discriminate.
      injection Hv as <-. auto. }
  destruct (setitem (memory cpu) target v) as [mem'|e0] eqn:Hs;
    cbn [bindR lift] in H; [discriminate|].
  injection H as <- <-. apply setitem_Raise in Hs. auto.
Qed.

Lemma run_Raised fuel cpu w e cpu' w' :
  run opcodes fuel cpu w = Raised e cpu' w' -> e <> Halt.
Proof.
  revert cpu w. induction fuel as [|fuel IH]; intros cpu w H; simpl in H.
  - discriminate.
  - destruct (step opcodes cpu w) as [c1 w1|e1 w1]; [eauto|].
    destruct e1; try discriminate; injection H as <- _ _; discriminate.
Qed.

(** C6: a word whose base opcode has no entry in the table makes the
    turn raise [KeyError], which [execute] lets out to the caller: the
    call is [Raised], not [Returned].  No exception that leaves
    [execute] is [Halt]; and, in a table where only opcode 99 holds a
    callable raising [Halt] and that callable is [Halt.halt], a call
    that returned stopped on a word whose base opcode is 99, and a turn
    on such a word makes the call return. *)
Theorem unknown_opcode_is_fatal :
  halt_only_99 opcodes ->
  opcodes !! 99 = Some (Instruction_ Halt_halt 0 false) ->
  (forall cpu w opcode fuel,
      getitem (memory cpu) (pos cpu) = Return opcode ->
      opcodes !! (opcode mod 100) = None ->
      step opcodes cpu w = Err KeyError w /\
      run opcodes (S fuel) cpu w = Raised KeyError cpu w) /\
  (forall fuel cpu w e cpu' w',
      run opcodes fuel cpu w = Raised e cpu' w' -> e <> Halt) /\
  (forall fuel cpu w cpu' w',
      run opcodes fuel cpu w = Returned cpu' w' ->
      exists opcode,
        getitem (memory cpu') (pos cpu') = Return opcode /\
        opcode mod 100 = 99) /\
  (forall cpu w opcode fuel,
      getitem (memory cpu) (pos cpu) = Return opcode ->
      opcode mod 100 = 99 ->
      run opcodes (S fuel) cpu w = Returned cpu w).
Proof.
  intros Honly H99. split; [|split; [|split]].
  - intros cpu w opcode fuel Hop Hnone.
    assert (Hs : step opcodes cpu w = Err KeyError w).
    { eapply step_decode_Raise; [exact Hop|].
      unfold CPU_getitem. now rewrite Hnone. }
    split; [exact Hs|]. simpl. now rewrite Hs.
  - intros fuel cpu w e cpu' w'. apply run_Raised.
  - intros fuel cpu w cpu' w' H.
    apply run_Returned in H as [w0 H].
    apply step_Err in H as [[H|[H|[H|H]]]|(opcode & instr & args & Hop & Hin & Hf)];
      try discriminate.
    exists opcode. split; [exact Hop|].
    eapply Honly; [exact Hin|]. red. eauto.
  - intros cpu w opcode fuel Hop H. simpl. unfold step, CPU_getitem.
    rewrite Hop. cbn [bindR]. rewrite H, H99. reflexivity.
Qed.

End Day05Ending.

Lemma jump_opcodes_halt_only_99 : halt_only_99 Day05.jump_opcodes.
Proof.
  intros k instr H (args & w & w' & Hf).
  unfold Day05.jump_opcodes, Day05.base_opcodes in H. simpl in H.
  repeat (rewrite lookup_insert in H; case_decide;
          [injection H as <-; simpl in Hf|]).
  all: try (destruct args as [|a [|b [|c args]]]; simpl in Hf; discriminate).
  - unfold Day05.py_input in Hf.
    destruct args; [destruct (Day05.stdin w)|]; discriminate.
  - congruence.
Qed.

(** ** Day 05: jumps and comparisons *)

Section Day05Jumps.

Import Day05.

Variable opcodes : gmap Z Instruction.

Hypothesis opcode_5 : opcodes !! 5 = Some (JumpInstruction py_bool 2).
Hypothesis opcode_6 : opcodes !! 6 = Some (JumpInstruction op_not 2).
Hypothesis opcode_7 : opcodes !! 7 = Some (Instruction_ op_lt 2 true).
Hypothesis opcode_8 : opcodes !! 8 = Some (Instruction_ op_eq 2 true).

Implicit Types (cpu : CPU) (w : World) (instr : Instruction).

Lemma enumerate_length {A} (l : list A) start : length (enumerate start l) = length l.
Proof. revert start. induction l; simpl; intros; [done|]. now rewrite IHl. Qed.

Lemma bound_args_length b mem args :
  bound_args b mem = Return args -> length args = length (modes b).
Proof.
  unfold bound_args. intros H. apply mapR_length in H.
  now rewrite enumerate_length in H.
Qed.

Lemma bind_modes_length instr opcode cpu b :
  bind instr opcode cpu = Return b -> length (modes b) = arg_count instr.
Proof.
  intros H. apply bind_Return in H as (_ & _ & H).
  apply mapR_length in H. now rewrite range_length in H.
Qed.

(** A completed turn on a two-operand instruction: its two operand
    values. *)
Lemma step_Ok_binary cpu w cpu' w' opcode instr :
  getitem (memory cpu) (pos cpu) = Return opcode ->
  opcodes !! (opcode mod 100) = Some instr ->
  arg_count instr = 2%nat ->
  step opcodes cpu w = Ok cpu' w' ->
  exists b x y result,
    CPU_getitem opcodes cpu opcode = Return b /\
    bound_args b (memory cpu) = Return [x; y] /\
    call instr (pos cpu) [x; y] w = Ok (pos cpu', result) w' /\
    if output instr then
      exists target v,
        getitem (memory cpu) (pos cpu + 3) = Return target /\
        int_of result = Return v /\
        setitem (memory cpu) target v = Return (memory cpu')
    else memory cpu' = memory cpu.
Proof.
  intros Hop Hin Hn Hs.
  apply step_Ok in Hs
    as (opcode' & instr' & b & args & result & Hop' & Hin' & Hb & Ha & Hc & Hw).
  rewrite Hop in Hop'. injection Hop' as <-.
  rewrite Hin in Hin'. injection Hin' as <-.
  pose proof (bound_args_length _ _ _ Ha) as Hlen.
  rewrite (bind_modes_length _ _ _ _ Hb), Hn in Hlen.
  destruct args as [|x [|y [|z args]]]; try discriminate Hlen.
  exists b, x, y, result. unfold CPU_getitem. rewrite Hin.
  rewrite Hn in Hw. replace (pos cpu + 1 + Z.of_nat 2) with (pos cpu + 3) in Hw by lia.
  auto.
Qed.

(** A turn whose instruction call returns: what is left of it is the
    store of the result, when the instruction has an output. *)
Lemma step_call_Ok cpu w opcode instr b args newpos result w1 :
  getitem (memory cpu) (pos cpu) = Return opcode ->
  opcodes !! (opcode mod 100) = Some instr ->
  CPU_getitem opcodes cpu opcode = Return b ->
  bound_args b (memory cpu) = Return args ->
  call instr (pos cpu) args w = Ok (newpos, result) w1 ->
  step opcodes cpu w =
  if output instr then
    lift (let* target := getitem (memory cpu)
                           (pos cpu + 1 + Z.of_nat (arg_count instr)) in
          let* v := int_of result in
          let* mem' := setitem (memory cpu) target v in
          Return (mkCPU mem' newpos)) w1
  else Ok (mkCPU (memory cpu) newpos) w1.
Proof.
  intros Hop Hin Hb Ha Hc. unfold step. rewrite Hop. cbn [bindR]. rewrite Hb.
  unfold CPU_getitem in Hb. rewrite Hin in Hb.
  destruct (bind_Return _ _ _ _ Hb) as (Hi & Ho & _).
  unfold BoundInstruction_call. rewrite Ha, Hi, Ho, Hc.
  destruct (output instr); [|reflexivity].
  destruct (getitem (memory cpu) (pos cpu + 1 + Z.of_nat (arg_count instr)));
    cbn [bindR lift]; [|reflexivity].
  destruct (int_of result); cbn [bindR lift]; [|reflexivity].
  destruct (setitem (memory cpu) _ _); reflexivity.
Qed.

(** C4: a turn on opcode 5 (jump-if-true) whose two operand values are
    read completes, and leaves the counter on the target when the
    condition is not zero and three words further when it is zero; on
    opcode 6 (jump-if-false) it is the other way round; three words is
    the width of a jump (the opcode word and two operands, no output).
    A turn on an instruction that is not a jump completes when its
    callable returns and, if it has an output, the result is stored;
    it moves the counter by the width of the instruction: one word, one
    per operand, and one more when it writes an output.  No completed
    turn on any of these leaves the counter anywhere else. *)
Theorem jump_counter :
  (forall cpu w cpu' w' opcode,
     getitem (memory cpu) (pos cpu) = Return opcode ->
     step opcodes cpu w = Ok cpu' w' ->
     (opcode mod 100 = 5 ->
        exists b c t,
          CPU_getitem opcodes cpu opcode = Return b /\
          bound_args b (memory cpu) = Return [c; t] /\
          pos cpu' = if c =? 0 then pos cpu + 3 else t) /\
     (opcode mod 100 = 6 ->
        exists b c t,
          CPU_getitem opcodes cpu opcode = Return b /\
          bound_args b (memory cpu) = Return [c; t] /\
          pos cpu' = if c =? 0 then t else pos cpu + 3) /\
     (forall instr,
        opcodes !! (opcode mod 100) = Some instr ->
        cls instr = Plain ->
        pos cpu' = pos cpu + (1 + Z.of_nat (arg_count instr)
                                + (if output instr then 1 else 0)))) /\
  (forall cpu w opcode b c t,
     getitem (memory cpu) (pos cpu) = Return opcode ->
     opcode mod 100 = 5 ->
     CPU_getitem opcodes cpu opcode = Return b ->
     bound_args b (memory cpu) = Return [c; t] ->
     step opcodes cpu w
     = Ok (mkCPU (memory cpu) (if c =? 0 then pos cpu + 3 else t)) w) /\
  (forall cpu w opcode b c t,
     getitem (memory cpu) (pos cpu) = Return opcode ->
     opcode mod 100 = 6 ->
     CPU_getitem opcodes cpu opcode = Return b ->
     bound_args b (memory cpu) = Return [c; t] ->
     step opcodes cpu w
     = Ok (mkCPU (memory cpu) (if c =? 0 then t else pos cpu + 3)) w) /\
  (forall cpu w opcode instr b args result w1,
     getitem (memory cpu) (pos cpu) = Return opcode ->
     opcodes !! (opcode mod 100) = Some instr ->
     cls instr = Plain ->
     CPU_getitem opcodes cpu opcode = Return b ->
     bound_args b (memory cpu) = Return args ->
     f instr args w = Ok result w1 ->
     let next := pos cpu + (1 + Z.of_nat (arg_count instr)
                              + (if output instr then 1 else 0)) in
     (output instr = false ->
        step opcodes cpu w = Ok (mkCPU (memory cpu) next) w1) /\
     (output instr = true ->
        forall target v mem',
          getitem (memory cpu) (pos cpu + 1 + Z.of_nat (arg_count instr))
            = Return target ->
          int_of result = Return v ->
          setitem (memory cpu) target v = Return mem' ->
          step opcodes cpu w = Ok (mkCPU mem' next) w1)).
Proof.
  split; [|split; [|split]].
  - intros cpu w cpu' w' opcode Hop Hs. split; [|split].
    + intros H5. pose proof opcode_5 as Hin. rewrite <- H5 in Hin.
      destruct (step_Ok_binary _ _ _ _ _ _ Hop Hin eq_refl Hs)
        as (b & c & t & result & Hb & Ha & Hc & _).
      exists b, c, t. split; [exact Hb|]. split; [exact Ha|].
      cbv [call cls JumpInstruction JumpInstruction_call Instruction_call f
           py_bool removelast List.last truthy arg_count output] in Hc.
      injection Hc as <- _ _. destruct (c =? 0); simpl; lia.
    + intros H6. pose proof opcode_6 as Hin. rewrite <- H6 in Hin.
      destruct (step_Ok_binary _ _ _ _ _ _ Hop Hin eq_refl Hs)
        as (b & c & t & result & Hb & Ha & Hc & _).
      exists b, c, t. split; [exact Hb|]. split; [exact Ha|].
      cbv [call cls JumpInstruction JumpInstruction_call Instruction_call f
           op_not removelast List.last truthy arg_count output] in Hc.
      injection Hc as <- _ _. destruct (c =? 0); simpl; lia.
    + intros instr Hin Hcls.
      apply step_Ok in Hs
        as (opcode' & instr' & b & args & result & Hop' & Hin' & _ & _ & Hc & _).
      rewrite Hop in Hop'. injection Hop' as <-.
      rewrite Hin in Hin'. injection Hin' as <-.
      unfold call, Instruction_call in Hc. rewrite Hcls in Hc.
      destruct (f instr args w); [|discriminate].
      injection Hc as <- _ _. lia.
  - intros cpu w opcode b c t Hop H5 Hb Ha.
    pose proof opcode_5 as Hin. rewrite <- H5 in Hin.
    rewrite (step_call_Ok cpu w opcode _ b [c; t]
               (if c =? 0 then pos cpu + 3 else t) (VBool (negb (c =? 0))) w
               Hop Hin Hb Ha); [reflexivity|].
    cbv [call cls JumpInstruction JumpInstruction_call Instruction_call f
         py_bool removelast List.last truthy arg_count output].
    destruct (c =? 0); simpl; do 2 f_equal; lia.
  - intros cpu w opcode b c t Hop H6 Hb Ha.
    pose proof opcode_6 as Hin. rewrite <- H6 in Hin.
    rewrite (step_call_Ok cpu w opcode _ b [c; t]
               (if c =? 0 then t else pos cpu + 3) (VBool (c =? 0)) w
               Hop Hin Hb Ha); [reflexivity|].
    cbv [call cls JumpInstruction JumpInstruction_call Instruction_call f
         op_not removelast List.last truthy arg_count output].
    destruct (c =? 0); simpl; do 2 f_equal; lia.
  - intros cpu w opcode instr b args result w1 Hop Hin Hcls Hb Ha Hf next.
    assert (Hc : call instr (pos cpu) args w = Ok (next, result) w1).
    { unfold call, Instruction_call. rewrite Hcls, Hf. subst next.
      do 2 f_equal. lia. }
    rewrite (step_call_Ok _ _ _ _ _ _ _ _ _ Hop Hin Hb Ha Hc). split.
    + now intros ->.
    + intros -> target v mem' -> Hv. cbn [bindR]. rewrite Hv. cbn [bindR].
      now intros ->.
Qed.

(** A turn on a comparison whose two operands are immediate: it
    completes as soon as the four words are there and the target is an
    index of the memory. *)
Lemma step_immediate_comparison cpu w opcode op x y target mem' :
  opcodes !! (opcode mod 100) = Some (Instruction_ op 2 true) ->
  opcode / 100 = 11 ->
  getitem (memory cpu) (pos cpu) = Return opcode ->
  getitem (memory cpu) (pos cpu + 1) = Return x ->
  getitem (memory cpu) (pos cpu + 2) = Return y ->
  getitem (memory cpu) (pos cpu + 3) = Return target ->
  forall result w1 v,
    op [x; y] w = Ok result w1 ->
    int_of result = Return v ->
    setitem (memory cpu) target v = Return mem' ->
    step opcodes cpu w = Ok (mkCPU mem' (pos cpu + 4)) w1.
Proof.
  intros Hin Hmodes Hop Hx Hy Ht result w1 v Hf Hv Hset.
  unfold step, CPU_getitem. rewrite Hop. cbn [bindR]. rewrite Hin.
  unfold bind. rewrite Hmodes.
  cbn [arg_count Instruction_ range seq fmap list_fmap mapR bindR].
  change (ParameterMode_of (11 / 10 ^ Z.of_nat 0 mod 10)) with (Return immediate).
  change (ParameterMode_of (11 / 10 ^ Z.of_nat 1 mod 10)) with (Return immediate).
  cbn [bindR]. unfold BoundInstruction_call, bound_args.
  cbn [modes offset instruction enumerate mapR memory pos].
  replace (pos cpu + 1 + 1) with (pos cpu + 2) by lia.
  rewrite Hx, Hy. cbn [bindR get].
  unfold call, Instruction_call. cbn [cls f arg_count output Instruction_].
  rewrite Hf.
  replace (pos cpu + 1 + Z.of_nat 2) with (pos cpu + 3) by lia.
  rewrite Ht. cbn [bindR lift]. rewrite Hv. cbn [bindR lift].
  rewrite Hset. cbn [bindR lift]. f_equal. f_equal. lia.
Qed.

(** C5: a completed turn on opcode 7 (less-than) or 8 (equals) writes,
    at the address its third parameter gives, 1 when the comparison of
    its two operand values holds and 0 when it does not; nothing else is
    written, whatever integers the operands are.  And such turns do
    complete: with immediate operands [x] and [y], any integers, and a
    target inside the memory, the turn on 1107 or 1108 writes exactly
    the 0 or 1 of the comparison at the target. *)
Theorem comparison_writes_0_or_1 :
  (forall cpu w cpu' w' opcode,
      getitem (memory cpu) (pos cpu) = Return opcode ->
      opcode mod 100 = 7 \/ opcode mod 100 = 8 ->
      step opcodes cpu w = Ok cpu' w' ->
      exists b x y target v,
        CPU_getitem opcodes cpu opcode = Return b /\
        bound_args b (memory cpu) = Return [x; y] /\
        getitem (memory cpu) (pos cpu + 3) = Return target /\
        setitem (memory cpu) target v = Return (memory cpu') /\
        getitem (memory cpu') target = Return v /\
        (v = 0 \/ v = 1) /\
        v = (if opcode mod 100 =? 7
             then (if x <? y then 1 else 0)
             else (if x =? y then 1 else 0))) /\
  (forall cpu w opcode x y target,
      opcode = 1107 \/ opcode = 1108 ->
      getitem (memory cpu) (pos cpu) = Return opcode ->
      getitem (memory cpu) (pos cpu + 1) = Return x ->
      getitem (memory cpu) (pos cpu + 2) = Return y ->
      getitem (memory cpu) (pos cpu + 3) = Return target ->
      - Z.of_nat (length (memory cpu)) <= target
        < Z.of_nat (length (memory cpu)) ->
      exists mem' v,
        step opcodes cpu w = Ok (mkCPU mem' (pos cpu + 4)) w /\
        setitem (memory cpu) target v = Return mem' /\
        getitem mem' target = Return v /\
        (v = 0 \/ v = 1) /\
        v = (if opcode =? 1107
             then (if x <? y then 1 else 0)
             else (if x =? y then 1 else 0))).
Proof.
  split.
  - intros cpu w cpu' w' opcode Hop [H7|H8] Hs.
    + pose proof opcode_7 as Hin. rewrite <- H7 in Hin.
      destruct (step_Ok_binary _ _ _ _ _ _ Hop Hin eq_refl Hs)
        as (b & x & y & result & Hb & Ha & Hc & target & v & Ht & Hv & Hset).
      exists b, x, y, target, v. rewrite H7.
      cbv [call cls Instruction_ Instruction_call f op_lt] in Hc.
      injection Hc as _ <- _. simpl in Hv. injection Hv as <-.
      repeat split; eauto using getitem_setitem.
      destruct (x <? y); auto.
    + pose proof opcode_8 as Hin. rewrite <- H8 in Hin.
      destruct (step_Ok_binary _ _ _ _ _ _ Hop Hin eq_refl Hs)
        as (b & x & y & result & Hb & Ha & Hc & target & v & Ht & Hv & Hset).
      exists b, x, y, target, v. rewrite H8.
      cbv [call cls Instruction_ Instruction_call f op_eq] in Hc.
      injection Hc as _ <- _. simpl in Hv. injection Hv as <-.
      repeat split; eauto using getitem_setitem.
      destruct (x =? y); auto.
  - intros cpu w opcode x y target Hcode Hop Hx Hy Ht Hrange.
    destruct Hcode as [-> | ->].
    + destruct (setitem_inside (memory cpu) target (if x <? y then 1 else 0)
                  Hrange) as [mem' Hset].
      exists mem', (if x <? y then 1 else 0).
      split; [|repeat split; eauto using getitem_setitem;
               destruct (x <? y); auto].
      eapply (step_immediate_comparison cpu w 1107 op_lt x y target mem');
        eauto; reflexivity.
    + destruct (setitem_inside (memory cpu) target (if x =? y then 1 else 0)
                  Hrange) as [mem' Hset].
      exists mem', (if x =? y then 1 else 0).
      split; [|repeat split; eauto using getitem_setitem;
               destruct (x =? y); auto].
      eapply (step_immediate_comparison cpu w 1108 op_eq x y target mem');
        eauto; reflexivity.
Qed.

(** C10: a completed turn on opcode 5 or 6 leaves the memory and the
    world as they were: of the state of the interpreter, a jump changes
    the counter only.  A turn on a jump that raises has not changed the
    world either. *)
Theorem jump_leaves_memory cpu w opcode :
  getitem (memory cpu) (pos cpu) = Return opcode ->
  opcode mod 100 = 5 \/ opcode mod 100 = 6 ->
  (forall cpu' w', step opcodes cpu w = Ok cpu' w' ->
                   memory cpu' = memory cpu /\ w' = w) /\
  (forall e w', step opcodes cpu w = Err e w' -> w' = w).
Proof.
  intros Hop H56.
  assert (exists instr, opcodes !! (opcode mod 100) = Some instr /\
            (instr = JumpInstruction py_bool 2 \/
             instr = JumpInstruction op_not 2)) as (instr & Hin & Hinstr).
  { destruct H56 as [-> | ->]; eauto. }
  assert (Hcall : forall p args r w1, call instr p args w = r ->
            match r with Ok _ w1 => w1 = w | Err _ w1 => w1 = w end).
  { intros p args r w1 <-.
    destruct Hinstr as [-> | ->]; cbv [call cls JumpInstruction JumpInstruction_call
      Instruction_call f py_bool op_not];
      destruct args as [|a args]; auto;
      destruct (removelast (a :: args)) as [|x [|y l]]; auto. }
  split.
  - intros cpu' w' Hs.
    apply step_Ok in Hs
      as (opcode' & instr' & b & args & result & Hop' & Hin' & _ & _ & Hc & Hw).
    rewrite Hop in Hop'. injection Hop' as <-.
    rewrite Hin in Hin'. injection Hin' as <-.
    apply (Hcall _ _ _ w) in Hc.
    destruct Hinstr as [-> | ->]; simpl in Hw; auto.
  - intros e w' Hs. unfold step in Hs. rewrite Hop in Hs. cbn [bindR] in Hs.
    unfold CPU_getitem in Hs. rewrite Hin in Hs.
    destruct (bind instr opcode cpu) as [b|] eqn:Hb; [|congruence].
    apply bind_Return in Hb as (Hi & _ & _).
    unfold BoundInstruction_call in Hs. rewrite Hi in Hs.
    destruct (bound_args b (memory cpu)) as [args|]; [|congruence].
    destruct (call instr (pos cpu) args w) as [[newpos result] w1|e1 w1] eqn:Hc;
      apply (Hcall _ _ _ w) in Hc.
    + destruct Hinstr as [-> | ->]; simpl in Hs; discriminate.
    + congruence.
Qed.

End Day05Jumps.

(** ** Day 05: operands, output parameter and memory accesses *)

Lemma enumerate_lookup {A} (l : list A) start i x :
  l !! i = Some x -> enumerate start l !! i = Some (start + Z.of_nat i, x).
Proof.
  revert start i. induction l as [|y l IH]; intros start i H; [discriminate|].
  destruct i as [|i]; simpl in *.
  - injection H as ->. f_equal. f_equal. lia.
  - rewrite (IH (start + 1) i H). f_equal. f_equal. lia.
Qed.

Lemma mapR_ext_in {A B} (g g' : A -> Raises B) l :
  (forall x, In x l -> g x = g' x) -> mapR g l = mapR g' l.
Proof.
  induction l as [|x l IH]; intros H; simpl; [reflexivity|].
  rewrite (H x) by (now left). rewrite IH; [reflexivity|].
  intros y Hy. apply H. now right.
Qed.

(** The digits below position [n] of the mode field do not see what is
    added at position [n] and above. *)
Lemma low_digit_unchanged q d n i :
  (i < n)%nat ->
  (q + d * 10 ^ Z.of_nat n) / 10 ^ Z.of_nat i mod 10 = q / 10 ^ Z.of_nat i mod 10.
Proof.
  intros Hi.
  replace (Z.of_nat n) with (Z.of_nat i + (1 + Z.of_nat (n - i - 1))) by lia.
  rewrite Z.pow_add_r, Z.pow_add_r by lia.
  replace (d * (10 ^ Z.of_nat i * (10 ^ 1 * 10 ^ Z.of_nat (n - i - 1))))
    with (d * 10 ^ Z.of_nat (n - i - 1) * 10 * 10 ^ Z.of_nat i) by ring.
  rewrite Z.div_add by (apply Z.pow_nonzero; lia).
  apply Z_mod_plus_full.
Qed.

Section Day05Memory.

Import Day05.

Variable opcodes : gmap Z Instruction.

Implicit Types (cpu : CPU) (w : World) (instr : Instruction) (mem : Memory).

Lemma bound_args_lookup b mem args i :
  bound_args b mem = Return args ->
  (i < length (modes b))%nat ->
  exists mode word value,
    modes b !! i = Some mode /\
    getitem mem (offset b + Z.of_nat i) = Return word /\
    get mode mem word = Return value /\
    args !! i = Some value.
Proof.
  intros Ha Hi. apply lookup_lt_is_Some_2 in Hi as [mode Hmode].
  destruct (mapR_lookup _ _ _ _ _ Ha (enumerate_lookup _ (offset b) _ _ Hmode))
    as (value & Hv & Hg).
  destruct (getitem mem (offset b + Z.of_nat i)) as [word|] eqn:Hw;
    [|discriminate].
  exists mode, word, value. auto.
Qed.

Lemma bound_args_position_outside b mem i word :
  modes b !! i = Some position ->
  getitem mem (offset b + Z.of_nat i) = Return word ->
  word < - Z.of_nat (length mem) \/ Z.of_nat (length mem) <= word ->
  bound_args b mem = Raise IndexError.
Proof.
  intros Hmode Hw Hout.
  destruct (mapR_some_Raise
              (fun '(i, param) => let* word := getitem mem i in get param mem word)
              (enumerate (offset b) (modes b))
              (offset b + Z.of_nat i, position) IndexError)
    as (e & x' & He & _).
  - apply list_elem_of_In, list_elem_of_lookup. exists i.
    now apply enumerate_lookup.
  - rewrite Hw. simpl. now apply getitem_outside.
  - unfold bound_args. rewrite He. f_equal.
    eapply bound_args_Raise. exact He.
Qed.

Lemma CPU_getitem_Return cpu opcode b :
  CPU_getitem opcodes cpu opcode = Return b ->
  opcodes !! (opcode mod 100) = Some (instruction b) /\
  offset b = pos cpu + 1 /\
  length (modes b) = arg_count (instruction b).
Proof.
  unfold CPU_getitem. intros H.
  destruct (opcodes !! (opcode mod 100)) as [instr|]; [|discriminate].
  pose proof (bind_modes_length _ _ _ _ H) as Hlen.
  apply bind_Return in H as (<- & Ho & _). auto.
Qed.

Lemma run_step_Err fuel cpu w e w' :
  step opcodes cpu w = Err e w' -> e <> Halt ->
  run opcodes (S fuel) cpu w = Raised e cpu w'.
Proof. intros Hs He. simpl. rewrite Hs. now destruct e. Qed.

(** C2: the getter of immediate mode gives the parameter word itself and
    the getter of position mode the memory value at that index.  In a
    completed turn, the value passed for operand [i] is the word at
    [pos + 1 + i] taken through the getter of the mode decoded for
    operand [i]; when the instruction has an output, the result is
    stored at the index that the word after the operands gives, taken as
    it is.  No mode is ever applied to that word: what the opcode word
    holds at its digit and above changes nothing in the decoding. *)
Theorem operands_and_output_parameter :
  (forall mem word,
      get immediate mem word = Return word /\
      get position mem word = getitem mem word) /\
  (forall cpu w cpu' w' opcode b,
      getitem (memory cpu) (pos cpu) = Return opcode ->
      CPU_getitem opcodes cpu opcode = Return b ->
      step opcodes cpu w = Ok cpu' w' ->
      exists args result,
        bound_args b (memory cpu) = Return args /\
        call (instruction b) (pos cpu) args w = Ok (pos cpu', result) w' /\
        (forall i, (i < arg_count (instruction b))%nat ->
           exists word value,
             getitem (memory cpu) (pos cpu + 1 + Z.of_nat i) = Return word /\
             args !! i = Some value /\
             ((modes b !! i = Some immediate /\ value = word) \/
              (modes b !! i = Some position /\
               getitem (memory cpu) word = Return value))) /\
        if output (instruction b) then
          exists target v,
            getitem (memory cpu)
              (pos cpu + 1 + Z.of_nat (arg_count (instruction b)))
              = Return target /\
            int_of result = Return v /\
            setitem (memory cpu) target v = Return (memory cpu')
        else memory cpu' = memory cpu) /\
  (forall cpu opcode instr d,
      opcodes !! (opcode mod 100) = Some instr ->
      CPU_getitem opcodes cpu
        (opcode + d * 10 ^ (Z.of_nat (arg_count instr) + 2))
      = CPU_getitem opcodes cpu opcode).
Proof.
  split; [|split].
  - intros mem word. split; reflexivity.
  - intros cpu w cpu' w' opcode b Hop Hb Hs.
    apply step_Ok in Hs
      as (opcode' & instr & b' & args & result & Hop' & Hin & Hb' & Ha & Hc & Hw).
    rewrite Hop in Hop'. injection Hop' as <-.
    assert (b' = b) as ->.
    { unfold CPU_getitem in Hb. rewrite Hin in Hb. congruence. }
    destruct (CPU_getitem_Return _ _ _ Hb) as (Hin' & Hoff & Hlen).
    rewrite Hin in Hin'. injection Hin' as ->.
    exists args, result. split; [exact Ha|]. split; [exact Hc|].
    split; [|exact Hw].
    intros i Hi. rewrite <- Hlen in Hi.
    destruct (bound_args_lookup _ _ _ _ Ha Hi)
      as (mode & word & value & Hmode & Hword & Hget & Hval).
    rewrite Hoff in Hword. exists word, value.
    split; [exact Hword|]. split; [exact Hval|].
    destruct mode; simpl in Hget; [right; auto|left].
    split; [exact Hmode|congruence].
  - intros cpu opcode instr d Hin. unfold CPU_getitem.
    set (n := arg_count instr).
    assert (Hsplit : opcode + d * 10 ^ (Z.of_nat n + 2)
                     = opcode + (d * 10 ^ Z.of_nat n) * 100).
    { rewrite Z.pow_add_r by lia. ring. }
    rewrite Hsplit, Z_mod_plus_full, Hin. unfold bind.
    rewrite Z.div_add by lia. fold n.
    rewrite (mapR_ext_in _
               (fun i => ParameterMode_of (opcode / 100 / 10 ^ i mod 10))).
    + reflexivity.
    + intros x Hx. apply range_In in Hx as (i & Hi & ->).
      now rewrite low_digit_unchanged.
Qed.

(** C7, as the code has it: a memory access (the fetch of the opcode
    word, the read of an operand in position mode, the write of the
    output) whose index lies outside [-len, len) raises [IndexError],
    and [execute] lets the exception out.  An index in [-len, 0) is not
    an error: it denotes the cell [len + index]. *)
Theorem out_of_range_is_fatal :
  (forall cpu w fuel,
      pos cpu < - Z.of_nat (length (memory cpu)) \/
      Z.of_nat (length (memory cpu)) <= pos cpu ->
      step opcodes cpu w = Err IndexError w /\
      run opcodes (S fuel) cpu w = Raised IndexError cpu w) /\
  (forall cpu w fuel opcode b i word,
      getitem (memory cpu) (pos cpu) = Return opcode ->
      CPU_getitem opcodes cpu opcode = Return b ->
      modes b !! i = Some position ->
      getitem (memory cpu) (pos cpu + 1 + Z.of_nat i) = Return word ->
      word < - Z.of_nat (length (memory cpu)) \/
      Z.of_nat (length (memory cpu)) <= word ->
      step opcodes cpu w = Err IndexError w /\
      run opcodes (S fuel) cpu w = Raised IndexError cpu w) /\
  (forall cpu w fuel opcode b args newpos result w1 target v,
      getitem (memory cpu) (pos cpu) = Return opcode ->
      CPU_getitem opcodes cpu opcode = Return b ->
      bound_args b (memory cpu) = Return args ->
      call (instruction b) (pos cpu) args w = Ok (newpos, result) w1 ->
      output (instruction b) = true ->
      getitem (memory cpu) (pos cpu + 1 + Z.of_nat (arg_count (instruction b)))
        = Return target ->
      int_of result = Return v ->
      target < - Z.of_nat (length (memory cpu)) \/
      Z.of_nat (length (memory cpu)) <= target ->
      step opcodes cpu w = Err IndexError w1 /\
      run opcodes (S fuel) cpu w = Raised IndexError cpu w1) /\
  (forall mem i v,
      - Z.of_nat (length mem) <= i < 0 ->
      getitem mem i = getitem mem (Z.of_nat (length mem) + i) /\
      setitem mem i v = setitem mem (Z.of_nat (length mem) + i) v /\
      exists x, getitem mem i = Return x).
Proof.
  assert (Hrun : forall cpu w fuel w',
            step opcodes cpu w = Err IndexError w' ->
            step opcodes cpu w = Err IndexError w' /\
            run opcodes (S fuel) cpu w = Raised IndexError cpu w').
  { intros cpu w fuel w' Hs. split; [exact Hs|].
    now apply run_step_Err. }
  split; [|split; [|split]].
  - intros cpu w fuel Hout. apply Hrun.
    apply step_fetch_Raise. now apply getitem_outside.
  - intros cpu w fuel opcode b i word Hop Hb Hmode Hword Hout. apply Hrun.
    eapply step_args_Raise; [exact Hop|exact Hb|].
    destruct (CPU_getitem_Return _ _ _ Hb) as (_ & Hoff & _).
    eapply bound_args_position_outside; [exact Hmode| |exact Hout].
    now rewrite Hoff.
  - intros cpu w fuel opcode b args newpos result w1 target v
      Hop Hb Ha Hc Hout Ht Hv Hrange. apply Hrun.
    destruct (CPU_getitem_Return _ _ _ Hb) as (_ & Hoff & _).
    unfold step. rewrite Hop. cbn [bindR]. rewrite Hb.
    unfold BoundInstruction_call. rewrite Ha, Hc, Hout, Hoff, Ht.
    cbn [bindR]. rewrite Hv. cbn [bindR].
    now rewrite (setitem_outside _ _ _ Hrange).
  - intros mem i v Hi. unfold getitem, setitem.
    rewrite (py_index_negative _ _ Hi).
    rewrite py_index_nonneg by lia. repeat split.
    pose proof (getitem_inside mem i ltac:(lia)) as [x Hx].
    exists x. unfold getitem in Hx. now rewrite (py_index_negative _ _ Hi) in Hx.
Qed.

End Day05Memory.

(** C7 as the specification words it fails: the index -1 lies outside
    [0, 3), and the program [4, -1, 99] reads through it all the same,
    prints the last cell and halts. *)
Lemma negative_index_is_not_fatal :
  ~ (0 <= -1 < Z.of_nat (length [4; -1; 99])) /\
  Day05.get Day05.position [4; -1; 99] (-1) = Return 99 /\
  Day05.execute Day05.base_opcodes 2 [4; -1; 99] Day05.empty_world
  = Day05.Returned (Day05.mkCPU [4; -1; 99] 2) (Day05.mkWorld [] [[99]] []).
Proof. split; [simpl; lia|]. split; vm_compute; reflexivity. Qed.

(** ** Day 02: the store and the runs *)

Section Day02Store.

Import Day02.

Implicit Types (h : Heap) (cpu : CPU) (l : loc).

Lemma deref_alloc_old h contents l :
  (l < length h)%nat -> deref (h ++ [contents]) l = deref h l.
Proof. intros H. unfold deref. now rewrite lookup_app_l. Qed.

Lemma deref_alloc_new h contents : deref (h ++ [contents]) (length h) = contents.
Proof.
  unfold deref. rewrite lookup_app_r by lia.
  now replace (length h - length h)%nat with 0%nat by lia.
Qed.

Lemma deref_insert_eq h l mem : (l < length h)%nat -> deref (<[l:=mem]> h) l = mem.
Proof. intros H. unfold deref. now rewrite list_lookup_insert_eq. Qed.

Lemma store_Return h l i v h' :
  store h l i v = Return h' ->
  exists mem', setitem (deref h l) i v = Return mem' /\ h' = <[l:=mem']> h.
Proof.
  unfold store. destruct (setitem _ _ _) as [mem'|]; simpl; [|discriminate].
  intros [= <-]. eauto.
Qed.

(** A call of an instruction changes the list it is given and no other. *)
Lemma Instruction_call_frame op h l ps h' :
  Instruction_call op h l ps = Return h' ->
  length h' = length h /\ forall l0, l0 <> l -> h' !! l0 = h !! l0.
Proof.
  unfold Instruction_call. destruct ps as [|p ps].
  - destruct (f op []); simpl; [|discriminate]. intros [= <-]. auto.
  - destruct (mapR _ _); simpl; [|discriminate].
    destruct (f op _); simpl; [|discriminate].
    intros H. apply store_Return in H as (mem' & _ & ->).
    split; [apply length_insert|]. intros l0 Hne.
    now apply list_lookup_insert_ne.
Qed.

Lemma step_frame h cpu h' cpu' :
  step h cpu = Return (h', cpu') ->
  memory cpu' = memory cpu /\ length h' = length h /\
  forall l0, l0 <> memory cpu -> h' !! l0 = h !! l0.
Proof.
  unfold step. destruct (load _ _ _); simpl; [|discriminate].
  destruct (opcodes !! _) as [op|]; [|discriminate].
  destruct (Instruction_call _ _ _ _) as [h1|] eqn:E; simpl; [|discriminate].
  intros [= <- <-]. apply Instruction_call_frame in E as [Hlen Hother]. auto.
Qed.

Lemma run_frame fuel h cpu h' cpu' o :
  run fuel h cpu = (h', cpu', o) ->
  memory cpu' = memory cpu /\ length h' = length h /\
  forall l0, l0 <> memory cpu -> h' !! l0 = h !! l0.
Proof.
  revert h cpu. induction fuel as [|fuel IH]; intros h cpu H; simpl in H.
  - injection H as <- <- _. auto.
  - destruct (step h cpu) as [[h1 c1]|e] eqn:Hs.
    + apply step_frame in Hs as (Hm & Hlen & Hother).
      apply IH in H as (Hm' & Hlen' & Hother').
      rewrite Hm', Hm, Hlen', Hlen. repeat split.
      intros l0 Hne. rewrite Hother' by congruence. now apply Hother.
    + assert (h' = h /\ cpu' = cpu) as [-> ->].
      { destruct e; try (injection H as <- <- _; auto).
        destruct (load h (memory cpu) 0); injection H as <- <- _; auto. }
      auto.
Qed.

(** A call of an instruction sees the store through its list only. *)
Lemma Instruction_call_view op h1 l1 h2 l2 ps :
  (l1 < length h1)%nat -> (l2 < length h2)%nat ->
  deref h1 l1 = deref h2 l2 ->
  match Instruction_call op h1 l1 ps, Instruction_call op h2 l2 ps with
  | Return h1', Return h2' => deref h1' l1 = deref h2' l2
  | Raise e1, Raise e2 => e1 = e2
  | _, _ => False
  end.
Proof.
  intros H1 H2 Hd. unfold Instruction_call, load, store. rewrite <- Hd.
  destruct ps as [|p ps].
  - destruct (f op []); simpl; auto.
  - destruct (mapR _ _); simpl; [|reflexivity].
    destruct (f op _); simpl; [|reflexivity].
    destruct (setitem _ _ _); simpl; [|reflexivity].
    now rewrite !deref_insert_eq.
Qed.

Lemma step_view h1 c1 h2 c2 :
  same_view h1 c1 h2 c2 ->
  match step h1 c1, step h2 c2 with
  | Return (h1', c1'), Return (h2', c2') => same_view h1' c1' h2' c2'
  | Raise e1, Raise e2 => e1 = e2
  | _, _ => False
  end.
Proof.
  intros (H1 & H2 & Hd & Hp).
  pose proof (step_frame h1 c1) as F1. pose proof (step_frame h2 c2) as F2.
  unfold step, load in *. rewrite <- Hd, <- Hp in *.
  destruct (getitem _ _) as [opcode|]; simpl in *; [|reflexivity].
  destruct (opcodes !! opcode) as [op|]; [|reflexivity].
  pose proof (Instruction_call_view op h1 (memory c1) h2 (memory c2)
    (getslice (deref h1 (memory c1)) (pos c1 + 1)
       (pos c1 + 1 + Z.of_nat (paramater_count op))) H1 H2 Hd) as V.
  destruct (Instruction_call op h1 _ _) as [h1'|];
    destruct (Instruction_call op h2 _ _) as [h2'|]; simpl in *; try contradiction;
    [|assumption].
  destruct (F1 _ _ eq_refl) as (_ & L1 & _).
  destruct (F2 _ _ eq_refl) as (_ & L2 & _).
  red. simpl. rewrite L1, L2. auto.
Qed.

Lemma run_view fuel h1 c1 h2 c2 :
  same_view h1 c1 h2 c2 ->
  observe (run fuel h1 c1) = observe (run fuel h2 c2).
Proof.
  revert h1 c1 h2 c2. induction fuel as [|fuel IH]; intros h1 c1 h2 c2 V; simpl.
  - destruct V as (_ & _ & -> & ->). reflexivity.
  - pose proof (step_view _ _ _ _ V) as S.
    destruct V as (_ & _ & Hd & Hp).
    destruct (step h1 c1) as [[h1' c1']|e1]; destruct (step h2 c2) as [[h2' c2']|e2];
      try contradiction.
    + now apply IH.
    + subst e2. unfold load. rewrite Hd.
      destruct e1; simpl; rewrite ?Hd, ?Hp; try reflexivity.
      destruct (getitem _ 0); simpl; now rewrite Hd, Hp.
Qed.

Lemma run_more_fuel_02 fuel k h cpu :
  snd (run fuel h cpu) <> OutOfFuel ->
  run (fuel + k) h cpu = run fuel h cpu.
Proof.
  revert h cpu. induction fuel as [|fuel IH]; intros h cpu H; simpl in *.
  - contradiction.
  - destruct (step h cpu) as [[h' cpu']|e]; [now apply IH|reflexivity].
Qed.

(** [execute] makes its list after every list of the store, and what it
    does from there is seen by the caller through that list only. *)
Lemma execute_view fuel h1 self1 l1 h2 self2 l2 noun verb :
  (l1 < length h1)%nat -> (l2 < length h2)%nat ->
  deref h1 l1 = deref h2 l2 ->
  observe (execute fuel h1 self1 l1 noun verb)
  = observe (execute fuel h2 self2 l2 noun verb).
Proof.
  intros H1 H2 Hd. unfold execute, reset, alloc. cbn [memory].
  assert (V0 : same_view (h1 ++ [deref h1 l1]) (mkCPU (length h1) 0)
                         (h2 ++ [deref h2 l2]) (mkCPU (length h2) 0)).
  { red. cbn [memory pos]. rewrite !length_app, !deref_alloc_new. simpl.
    repeat split; [lia|lia|exact Hd]. }
  assert (Vstore : forall ha hb i v,
            same_view ha (mkCPU (length h1) 0) hb (mkCPU (length h2) 0) ->
            match override ha (length h1) i v, override hb (length h2) i v with
            | Return ha', Return hb' =>
                same_view ha' (mkCPU (length h1) 0) hb' (mkCPU (length h2) 0)
            | Raise e1, Raise e2 =>
                e1 = e2
            | _, _ => False
            end).
  { intros ha hb i [v|] V; [|exact V].
    destruct V as (Ha & Hb & Hdd & _). cbn [memory pos] in *.
    unfold override, store. rewrite <- Hdd.
    destruct (setitem _ _ _); simpl; [|reflexivity].
    red. cbn [memory pos]. rewrite !length_insert, !deref_insert_eq by assumption.
    auto. }
  pose proof (Vstore _ _ 1 noun V0) as Vn.
  destruct (override (h1 ++ _) (length h1) 1 noun) as [ha|e1];
    destruct (override (h2 ++ _) (length h2) 1 noun) as [hb|e2]; try contradiction.
  2:{ subst e2. destruct V0 as (_ & _ & Hdd & _). simpl in *. now rewrite Hdd. }
  pose proof (Vstore _ _ 2 verb Vn) as Vv.
  destruct (override ha (length h1) 2 verb) as [ha'|e1];
    destruct (override hb (length h2) 2 verb) as [hb'|e2]; try contradiction.
  2:{ subst e2. destruct Vn as (_ & _ & Hdd & _). simpl in *. now rewrite Hdd. }
  now apply run_view.
Qed.

Lemma override_frame h l i v h' :
  override h l i v = Return h' ->
  length h' = length h /\ forall l0, l0 <> l -> h' !! l0 = h !! l0.
Proof.
  destruct v as [v|]; simpl; [|intros [= <-]; auto].
  intros H. apply store_Return in H as (mem' & _ & ->).
  split; [apply length_insert|]. intros l0 Hne. now apply list_lookup_insert_ne.
Qed.

(** Every list of the store is as it was when [execute] is over; the
    list of the [CPU] object is a new one. *)
Lemma execute_frame fuel h self l noun verb h' self' o :
  execute fuel h self l noun verb = (h', self', o) ->
  memory self' = length h /\
  forall l0 x, h !! l0 = Some x -> h' !! l0 = Some x.
Proof.
  unfold execute, reset, alloc. cbn [memory]. intros H.
  assert (Hold : forall l0 x, h !! l0 = Some x ->
            (l0 <> length h) /\ (h ++ [deref h l]) !! l0 = Some x).
  { intros l0 x Hx. pose proof (lookup_lt_Some _ _ _ Hx).
    split; [lia|]. now rewrite lookup_app_l. }
  destruct (override _ _ 1 noun) as [ha|] eqn:En.
  2:{ injection H as <- <- _. split; [reflexivity|]. intros. now apply Hold. }
  apply override_frame in En as (Lna & Fna).
  destruct (override ha _ 2 verb) as [hb|] eqn:Ev.
  2:{ injection H as <- <- _. split; [reflexivity|].
      intros l0 x Hx. destruct (Hold _ _ Hx). now rewrite Fna. }
  apply override_frame in Ev as (Lnb & Fnb).
  apply run_frame in H as (Hm & _ & Fr). cbn [memory] in *.
  split; [exact Hm|].
  intros l0 x Hx. destruct (Hold _ _ Hx). now rewrite Fr, Fnb, Fna.
Qed.

Lemma execute_more_fuel fuel k h self l noun verb :
  snd (execute fuel h self l noun verb) <> OutOfFuel ->
  execute (fuel + k) h self l noun verb = execute fuel h self l noun verb.
Proof.
  unfold execute. destruct (reset h (Some l)) as [h0 self0].
  destruct (override h0 _ 1 noun) as [h1|]; [|reflexivity].
  destruct (override h1 _ 2 verb) as [h2|]; [|reflexivity].
  apply run_more_fuel_02.
Qed.

(** C9: [reset] gives the [CPU] object a new list, a copy of the image,
    and the counter 0.  A call of [execute] leaves every list the store
    held as it was, the image among them.  What the caller sees of a
    call (the final memory, the final counter, how the call ended) is
    the same from any store and any [CPU] object, given the same image
    contents and the same overrides; so a call made after another call
    on the same image, with other overrides, goes as if that other call
    had never been made. *)
Theorem runs_are_isolated :
  (forall h l, reset h (Some l) = (h ++ [deref h l], mkCPU (length h) 0)) /\
  (forall fuel h self l noun verb h' self' o,
      execute fuel h self l noun verb = (h', self', o) ->
      memory self' = length h /\
      forall l0 x, h !! l0 = Some x -> h' !! l0 = Some x) /\
  (forall fuel h1 self1 l1 h2 self2 l2 noun verb,
      (l1 < length h1)%nat -> (l2 < length h2)%nat ->
      deref h1 l1 = deref h2 l2 ->
      observe (execute fuel h1 self1 l1 noun verb)
      = observe (execute fuel h2 self2 l2 noun verb)) /\
  (forall fuel0 fuel h self l noun0 verb0 noun verb h1 self1 o1,
      (l < length h)%nat ->
      execute fuel0 h self l noun0 verb0 = (h1, self1, o1) ->
      observe (execute fuel h1 self1 l noun verb)
      = observe (execute fuel h self l noun verb)).
Proof.
  split; [|split; [|split]].
  - reflexivity.
  - intros *. apply execute_frame.
  - intros *. apply execute_view.
  - intros * Hl He. apply execute_frame in He as (_ & Hold).
    destruct (lookup_lt_is_Some_2 _ _ Hl) as [image Himage].
    pose proof (Hold _ _ Himage) as Himage1.
    apply execute_view; [eapply lookup_lt_Some; eauto|exact Hl|].
    unfold deref. now rewrite Himage, Himage1.
Qed.

End Day02Store.

(** ** The test program of both notebooks *)

(** C1: on the image [1,9,10,3,2,3,11,0,99,30,40,50], the [execute] of
    Day 05 (with [base_opcodes]) and the [execute] of Day 02 (with no
    override) both stop on the [Halt] raised at address 8, where the
    word is 99, after three turns of the loop; memory address 0 then
    holds 3500, which is also what the [execute] of Day 02 returns. *)
Theorem test_program_leaves_3500 :
  let final := [3500; 9; 10; 70; 2; 3; 11; 0; 99; 30; 40; 50] in
  getitem final 0 = Return 3500 /\
  getitem final 8 = Return 99 /\
  (forall w k,
      Day05.execute Day05.base_opcodes (3 + k) Day05.test_mem w
      = Day05.Returned (Day05.mkCPU final 8) w) /\
  (forall h self l k,
      h !! l = Some Day02.test ->
      observe (Day02.execute (3 + k) h self l None None)
      = (final, 8, Day02.Returned 3500)).
Proof.
  intros final. split; [reflexivity|]. split; [reflexivity|]. split.
  - intros w k. unfold Day05.execute.
    assert (H3 : Day05.run Day05.base_opcodes 3
                   (Day05.reset (Some Day05.test_mem)) w
                 = Day05.Returned (Day05.mkCPU final 8) w)
      by (vm_compute; reflexivity).
    rewrite run_more_fuel; [exact H3|].
    intros c' w'. rewrite H3. discriminate.
  - intros h self l k Hl.
    rewrite (execute_view _ h self l [Day02.test] (Day02.mkCPU 0 0) 0%nat).
    + assert (H3 : Day02.execute 3 [Day02.test] (Day02.mkCPU 0 0) 0%nat None None
                   = ([Day02.test; final], Day02.mkCPU 1 8, Day02.Returned 3500))
        by (vm_compute; reflexivity).
      rewrite execute_more_fuel; rewrite H3; [reflexivity|discriminate].
    + eapply lookup_lt_Some; eauto.
    + simpl. lia.
    + unfold Day02.deref. now rewrite Hl.
Qed.

Lemma decode_opcode_word_witness :
  let b := Day05.mkBound (Day05.JumpInstruction Day05.py_bool 2)
             [Day05.position; Day05.immediate] 1 in
  Day05.CPU_getitem Day05.jump_opcodes (Day05.mkCPU [1005; 20; 22] 0) 1005
    = Return b /\
  Day05.modes b !! 0%nat = Some Day05.position /\
  Day05.modes b !! 1%nat = Some Day05.immediate.
Proof.
  intros b.
  assert (H : Day05.CPU_getitem Day05.jump_opcodes
                (Day05.mkCPU [1005; 20; 22] 0) 1005 = Return b)
    by (vm_compute; reflexivity).
  split; [exact H|].
  destruct (decode_opcode_word _ _ _ _ H) as (_ & _ & Hd).
  split.
  - destruct (Hd 0%nat) as [[_ E]|[E _]]; [simpl; lia|exact E|discriminate E].
  - destruct (Hd 1%nat) as [[E _]|[_ E]]; [simpl; lia|discriminate E|exact E].
Defined.

Lemma malformed_mode_is_fatal_witness :
  Day05.step Day05.jump_opcodes (Day05.mkCPU [201; 0; 0; 0; 99] 0)
    Day05.empty_world = Day05.Err ValueError Day05.empty_world /\
  Day05.run Day05.jump_opcodes 1 (Day05.mkCPU [201; 0; 0; 0; 99] 0)
    Day05.empty_world
  = Day05.Raised ValueError (Day05.mkCPU [201; 0; 0; 0; 99] 0) Day05.empty_world.
Proof.
  apply (malformed_mode_is_fatal Day05.jump_opcodes
           (Day05.mkCPU [201; 0; 0; 0; 99] 0) Day05.empty_world 201
           (Day05.Instruction_ Day05.op_add 2 true) 0%nat 0%nat).
  - reflexivity.
  - vm_compute; reflexivity.
  - simpl; lia.
  - vm_compute; discriminate.
  - vm_compute; discriminate.
Defined.

Lemma unknown_opcode_is_fatal_witness :
  Day05.run Day05.jump_opcodes 1 (Day05.mkCPU [42; 0; 99] 0) Day05.empty_world
  = Day05.Raised KeyError (Day05.mkCPU [42; 0; 99] 0) Day05.empty_world.
Proof.
  assert (H99 : Day05.jump_opcodes !! 99
                = Some (Day05.Instruction_ Day05.Halt_halt 0 false))
    by (vm_compute; reflexivity).
  destruct (unknown_opcode_is_fatal Day05.jump_opcodes jump_opcodes_halt_only_99
              H99) as (Hunknown & _ & _ & _).
  apply (Hunknown (Day05.mkCPU [42; 0; 99] 0) Day05.empty_world 42 0%nat).
  - reflexivity.
  - vm_compute; reflexivity.
Defined.

Lemma jump_counter_witness :
  let w := Day05.empty_world in
  Day05.step Day05.jump_opcodes (Day05.mkCPU [1105; 0; 7; 99] 0) w
    = Day05.Ok (Day05.mkCPU [1105; 0; 7; 99] 3) w /\
  Day05.step Day05.jump_opcodes (Day05.mkCPU [1105; 1; 7; 99] 0) w
    = Day05.Ok (Day05.mkCPU [1105; 1; 7; 99] 7) w /\
  Day05.step Day05.jump_opcodes (Day05.mkCPU [1106; 0; 7; 99] 0) w
    = Day05.Ok (Day05.mkCPU [1106; 0; 7; 99] 7) w /\
  Day05.step Day05.jump_opcodes (Day05.mkCPU [1106; 5; 7; 99] 0) w
    = Day05.Ok (Day05.mkCPU [1106; 5; 7; 99] 3) w /\
  Day05.step Day05.jump_opcodes (Day05.mkCPU [1101; 2; 3; 0; 99] 0) w
    = Day05.Ok (Day05.mkCPU [5; 2; 3; 0; 99] 4) w /\
  Day05.step Day05.jump_opcodes (Day05.mkCPU [104; 9; 99] 0) w
    = Day05.Ok (Day05.mkCPU [104; 9; 99] 2) (Day05.mkWorld [] [[9]] []) /\
  exists b c t,
    Day05.CPU_getitem Day05.jump_opcodes (Day05.mkCPU [1105; 0; 7; 99] 0) 1105
      = Return b /\
    Day05.bound_args b [1105; 0; 7; 99] = Return [c; t] /\
    3 = if c =? 0 then 0 + 3 else t.
Proof.
  intros w.
  assert (H5 : Day05.jump_opcodes !! 5
               = Some (Day05.JumpInstruction Day05.py_bool 2))
    by (vm_compute; reflexivity).
  assert (H6 : Day05.jump_opcodes !! 6
               = Some (Day05.JumpInstruction Day05.op_not 2))
    by (vm_compute; reflexivity).
  destruct (jump_counter Day05.jump_opcodes H5 H6)
    as (Hdone & Htrue & Hfalse & Hplain).
  pose (jump := fun f => Day05.mkBound (Day05.JumpInstruction f 2)
                           [Day05.immediate; Day05.immediate] 1).
  assert (Hs : Day05.step Day05.jump_opcodes (Day05.mkCPU [1105; 0; 7; 99] 0) w
               = Day05.Ok (Day05.mkCPU [1105; 0; 7; 99] 3) w).
  { refine (Htrue (Day05.mkCPU [1105; 0; 7; 99] 0) w 1105
              (jump Day05.py_bool) 0 7 eq_refl eq_refl _ _);
      vm_compute; reflexivity. }
  split; [exact Hs|]. split; [|split; [|split; [|split; [|split]]]].
  - refine (Htrue (Day05.mkCPU [1105; 1; 7; 99] 0) w 1105
              (jump Day05.py_bool) 1 7 eq_refl eq_refl _ _);
      vm_compute; reflexivity.
  - refine (Hfalse (Day05.mkCPU [1106; 0; 7; 99] 0) w 1106
              (jump Day05.op_not) 0 7 eq_refl eq_refl _ _);
      vm_compute; reflexivity.
  - refine (Hfalse (Day05.mkCPU [1106; 5; 7; 99] 0) w 1106
              (jump Day05.op_not) 5 7 eq_refl eq_refl _ _);
      vm_compute; reflexivity.
  - refine (proj2 (Hplain (Day05.mkCPU [1101; 2; 3; 0; 99] 0) w 1101
                     (Day05.Instruction_ Day05.op_add 2 true)
                     (Day05.mkBound (Day05.Instruction_ Day05.op_add 2 true)
                        [Day05.immediate; Day05.immediate] 1)
                     [2; 3] (VInt 5) w eq_refl _ eq_refl _ _ eq_refl)
              eq_refl 0 5 [5; 2; 3; 0; 99] eq_refl eq_refl eq_refl);
      vm_compute; reflexivity.
  - refine (proj1 (Hplain (Day05.mkCPU [104; 9; 99] 0) w 104
                     (Day05.Instruction_ Day05.py_print 1 false)
                     (Day05.mkBound (Day05.Instruction_ Day05.py_print 1 false)
                        [Day05.immediate] 1)
                     [9] VNone (Day05.mkWorld [] [[9]] []) eq_refl _ eq_refl
                     _ _ eq_refl)
              eq_refl);
      vm_compute; reflexivity.
  - destruct (Hdone (Day05.mkCPU [1105; 0; 7; 99] 0) w
                (Day05.mkCPU [1105; 0; 7; 99] 3) w 1105 eq_refl Hs)
      as (Hnot_taken & _ & _).
    apply Hnot_taken. reflexivity.
Defined.

Lemma comparison_writes_0_or_1_witness :
  let cpu := Day05.mkCPU [1107; -3; 8; 5; 99; 7] 0 in
  let cpu' := Day05.mkCPU [1107; -3; 8; 5; 99; 1] 4 in
  Day05.step Day05.jump_opcodes cpu Day05.empty_world
    = Day05.Ok cpu' Day05.empty_world /\
  exists b x y target v,
    Day05.CPU_getitem Day05.jump_opcodes cpu 1107 = Return b /\
    Day05.bound_args b (Day05.memory cpu) = Return [x; y] /\
    getitem (Day05.memory cpu) (Day05.pos cpu + 3) = Return target /\
    setitem (Day05.memory cpu) target v = Return (Day05.memory cpu') /\
    getitem (Day05.memory cpu') target = Return v /\
    (v = 0 \/ v = 1) /\
    v = (if 1107 mod 100 =? 7
         then (if x <? y then 1 else 0)
         else (if x =? y then 1 else 0)).
Proof.
  intros cpu cpu'.
  assert (Hs : Day05.step Day05.jump_opcodes cpu Day05.empty_world
               = Day05.Ok cpu' Day05.empty_world) by (vm_compute; reflexivity).
  split; [exact Hs|].
  assert (H7 : Day05.jump_opcodes !! 7
               = Some (Day05.Instruction_ Day05.op_lt 2 true))
    by (vm_compute; reflexivity).
  assert (H8 : Day05.jump_opcodes !! 8
               = Some (Day05.Instruction_ Day05.op_eq 2 true))
    by (vm_compute; reflexivity).
  destruct (comparison_writes_0_or_1 Day05.jump_opcodes H7 H8) as (Hsafe & _).
  apply (Hsafe cpu Day05.empty_world cpu' Day05.empty_world 1107 eq_refl).
  - left. reflexivity.
  - exact Hs.
Defined.

Lemma jump_leaves_memory_witness :
  let cpu := Day05.mkCPU [1106; 0; 7; 99] 0 in
  let cpu' := Day05.mkCPU [1106; 0; 7; 99] 7 in
  Day05.step Day05.jump_opcodes cpu Day05.empty_world
    = Day05.Ok cpu' Day05.empty_world /\
  Day05.memory cpu' = Day05.memory cpu /\
  Day05.empty_world = Day05.empty_world.
Proof.
  intros cpu cpu'.
  assert (Hs : Day05.step Day05.jump_opcodes cpu Day05.empty_world
               = Day05.Ok cpu' Day05.empty_world) by (vm_compute; reflexivity).
  split; [exact Hs|].
  assert (H5 : Day05.jump_opcodes !! 5
               = Some (Day05.JumpInstruction Day05.py_bool 2))
    by (vm_compute; reflexivity).
  assert (H6 : Day05.jump_opcodes !! 6
               = Some (Day05.JumpInstruction Day05.op_not 2))
    by (vm_compute; reflexivity).
  destruct (jump_leaves_memory Day05.jump_opcodes H5 H6 cpu Day05.empty_world
              1106 eq_refl (or_intror eq_refl)) as (Hok & _).
  exact (Hok cpu' Day05.empty_world Hs).
Defined.

Lemma runs_are_isolated_witness :
  let h := [Day02.test] in
  let self := Day02.mkCPU 0 0 in
  let h1 := [Day02.test; [250; 4; 5; 5; 2; 3; 11; 0; 99; 30; 40; 50]] in
  let self1 := Day02.mkCPU 1 8 in
  Day02.execute 3 h self 0%nat (Some 4) (Some 5)
    = (h1, self1, Day02.Returned 250) /\
  observe (Day02.execute 3 h1 self1 0%nat None None)
    = observe (Day02.execute 3 h self 0%nat None None) /\
  observe (Day02.execute 3 h1 self1 0%nat None None)
    = ([3500; 9; 10; 70; 2; 3; 11; 0; 99; 30; 40; 50], 8, Day02.Returned 3500).
Proof.
  intros h self h1 self1.
  assert (H : Day02.execute 3 h self 0%nat (Some 4) (Some 5)
              = (h1, self1, Day02.Returned 250)) by (vm_compute; reflexivity).
  split; [exact H|]. split.
  - destruct runs_are_isolated as (_ & _ & _ & Hnext).
    apply (Hnext 3%nat 3%nat h self 0%nat (Some 4) (Some 5) None None h1 self1
             (Day02.Returned 250)); [simpl; lia|exact H].
  - vm_compute; reflexivity.
Defined.

Lemma test_program_leaves_3500_witness :
  observe (Day02.execute (3 + 2) [[7]; Day02.test] (Day02.mkCPU 0 5) 1%nat
             None None)
  = ([3500; 9; 10; 70; 2; 3; 11; 0; 99; 30; 40; 50], 8, Day02.Returned 3500).
Proof.
  destruct test_program_leaves_3500 as (_ & _ & _ & H02).
  apply (H02 [[7]; Day02.test] (Day02.mkCPU 0 5) 1%nat 2%nat). reflexivity.
Defined.

Lemma operands_and_output_parameter_witness :
  let cpu := Day05.mkCPU [1002; 4; 3; 4; 33] 0 in
  let cpu' := Day05.mkCPU [1002; 4; 3; 4; 99] 4 in
  let b := Day05.mkBound (Day05.Instruction_ Day05.op_mul 2 true)
             [Day05.position; Day05.immediate] 1 in
  Day05.step Day05.base_opcodes cpu Day05.empty_world
    = Day05.Ok cpu' Day05.empty_world /\
  exists args result,
    Day05.bound_args b (Day05.memory cpu) = Return args /\
    Day05.call (Day05.instruction b) (Day05.pos cpu) args Day05.empty_world
      = Day05.Ok (Day05.pos cpu', result) Day05.empty_world /\
    (forall i, (i < Day05.arg_count (Day05.instruction b))%nat ->
       exists word value,
         getitem (Day05.memory cpu) (Day05.pos cpu + 1 + Z.of_nat i)
           = Return word /\
         args !! i = Some value /\
         ((Day05.modes b !! i = Some Day05.immediate /\ value = word) \/
          (Day05.modes b !! i = Some Day05.position /\
           getitem (Day05.memory cpu) word = Return value))) /\
    if Day05.output (Day05.instruction b) then
      exists target v,
        getitem (Day05.memory cpu)
          (Day05.pos cpu + 1 + Z.of_nat (Day05.arg_count (Day05.instruction b)))
          = Return target /\
        int_of result = Return v /\
        setitem (Day05.memory cpu) target v = Return (Day05.memory cpu')
    else Day05.memory cpu' = Day05.memory cpu.
Proof.
  intros cpu cpu' b.
  assert (Hs : Day05.step Day05.base_opcodes cpu Day05.empty_world
               = Day05.Ok cpu' Day05.empty_world) by (vm_compute; reflexivity).
  split; [exact Hs|].
  destruct (operands_and_output_parameter Day05.base_opcodes) as (_ & Hturn & _).
  apply (Hturn cpu Day05.empty_world cpu' Day05.empty_world 1002 b).
  - reflexivity.
  - vm_compute; reflexivity.
  - exact Hs.
Defined.

Lemma out_of_range_is_fatal_witness :
  let cpu := Day05.mkCPU [4; 7; 99] 0 in
  Day05.step Day05.base_opcodes cpu Day05.empty_world
    = Day05.Err IndexError Day05.empty_world /\
  Day05.run Day05.base_opcodes 1 cpu Day05.empty_world
    = Day05.Raised IndexError cpu Day05.empty_world.
Proof.
  intros cpu.
  destruct (out_of_range_is_fatal Day05.base_opcodes) as (_ & Hread & _).
  apply (Hread cpu Day05.empty_world 0%nat 4
           (Day05.mkBound (Day05.Instruction_ Day05.py_print 1 false)
              [Day05.position] 1) 0%nat 7).
  - reflexivity.
  - vm_compute; reflexivity.
  - reflexivity.
  - reflexivity.
  - right. simpl. lia.
Defined.

(** * Further properties *)

(** ** Day 05: what a turn does to the memory *)

Section Day05Shape.

Import Day05.

Variable opcodes : gmap Z Instruction.

Implicit Types (cpu : CPU) (w : World).

Lemma setitem_one_cell (mem : list Z) i v mem' :
  setitem mem i v = Return mem' ->
  exists k, (k < length mem)%nat /\ mem' = <[k:=v]> mem.
Proof.
  unfold setitem. destruct (py_index _ _) as [k|] eqn:E; [|discriminate].
  intros [= <-]. exists k. split; [eapply py_index_lt; eauto|reflexivity].
Qed.

Lemma step_one_cell cpu w cpu' w' :
  step opcodes cpu w = Ok cpu' w' ->
  memory cpu' = memory cpu \/
  exists k v, (k < length (memory cpu))%nat /\
              memory cpu' = <[k:=v]> (memory cpu).
Proof.
  intros H. apply step_Ok in H
    as (opcode & instr & b & args & result & _ & _ & _ & _ & _ & Hw).
  destruct (output instr); [|now left].
  destruct Hw as (target & v & _ & _ & Hset).
  apply setitem_one_cell in Hset as (k & Hk & ->). right. eauto.
Qed.

Lemma step_length cpu w cpu' w' :
  step opcodes cpu w = Ok cpu' w' ->
  length (memory cpu') = length (memory cpu).
Proof.
  intros H. apply step_one_cell in H as [->|(k & v & _ & ->)]; [reflexivity|].
  apply length_insert.
Qed.

(** X1: whatever the table, a completed turn leaves the memory as it
    was or changes one cell of it, and the memory a call of [run] ends
    with has the length of the memory it started with: the interpreter
    never makes the memory longer or shorter. *)
Theorem memory_keeps_its_length :
  (forall cpu w cpu' w',
      step opcodes cpu w = Ok cpu' w' ->
      memory cpu' = memory cpu \/
      exists k v, (k < length (memory cpu))%nat /\
                  memory cpu' = <[k:=v]> (memory cpu)) /\
  (forall fuel cpu w,
      match run opcodes fuel cpu w with
      | Returned cpu' _ | Raised _ cpu' _ | OutOfFuel cpu' _ =>
          length (memory cpu') = length (memory cpu)
      end).
Proof.
  split; [exact step_one_cell|].
  induction fuel as [|fuel IH]; intros cpu w; simpl; [reflexivity|].
  destruct (step opcodes cpu w) as [c1 w1|e w1] eqn:Hs.
  - specialize (IH c1 w1). rewrite <- (step_length _ _ _ _ Hs).
    destruct (run opcodes fuel c1 w1); exact IH.
  - destruct e; reflexivity.
Qed.

End Day05Shape.

(** ** Day 05: arithmetic, input and output *)

Section Day05Base.

Import Day05.

Variable opcodes : gmap Z Instruction.

Implicit Types (cpu : CPU) (w : World) (instr : Instruction).

(** A completed turn, with the length of the operand list. *)
Lemma step_Ok_args cpu w cpu' w' opcode instr :
  getitem (memory cpu) (pos cpu) = Return opcode ->
  opcodes !! (opcode mod 100) = Some instr ->
  step opcodes cpu w = Ok cpu' w' ->
  exists b args result,
    CPU_getitem opcodes cpu opcode = Return b /\
    instruction b = instr /\
    bound_args b (memory cpu) = Return args /\
    length args = arg_count instr /\
    call instr (pos cpu) args w = Ok (pos cpu', result) w' /\
    if output instr then
      exists target v,
        getitem (memory cpu) (pos cpu + 1 + Z.of_nat (arg_count instr))
          = Return target /\
        int_of result = Return v /\
        setitem (memory cpu) target v = Return (memory cpu')
    else memory cpu' = memory cpu.
Proof.
  intros Hop Hin Hs.
  apply step_Ok in Hs
    as (opcode' & instr' & b & args & result & Hop' & Hin' & Hb & Ha & Hc & Hw).
  rewrite Hop in Hop'. injection Hop' as <-.
  rewrite Hin in Hin'. injection Hin' as <-.
  pose proof (bound_args_length _ _ _ Ha) as Hlen.
  rewrite (bind_modes_length _ _ _ _ Hb) in Hlen.
  exists b, args, result. unfold CPU_getitem. rewrite Hin.
  destruct (bind_Return _ _ _ _ Hb) as (Hi & _ & _). auto 10.
Qed.

(** X2: in a table with the notebook's entries for 1 and 2, a
    completed turn on opcode 1 (add) or 2 (multiply) stores the sum or
    the product of its two operand values at the index its third
    parameter gives, moves the counter four words on and leaves the
    world as it was. *)
Theorem arithmetic_turn cpu w cpu' w' opcode :
  opcodes !! 1 = Some (Instruction_ op_add 2 true) ->
  opcodes !! 2 = Some (Instruction_ op_mul 2 true) ->
  getitem (memory cpu) (pos cpu) = Return opcode ->
  opcode mod 100 = 1 \/ opcode mod 100 = 2 ->
  step opcodes cpu w = Ok cpu' w' ->
  exists b x y target,
    CPU_getitem opcodes cpu opcode = Return b /\
    bound_args b (memory cpu) = Return [x; y] /\
    getitem (memory cpu) (pos cpu + 3) = Return target /\
    setitem (memory cpu) target
      (if opcode mod 100 =? 1 then x + y else x * y) = Return (memory cpu') /\
    pos cpu' = pos cpu + 4 /\
    w' = w.
Proof.
  intros H1 H2 Hop Hcode Hs.
  destruct Hcode as [E|E]; rewrite E;
    [pose proof H1 as Hin|pose proof H2 as Hin]; rewrite <- E in Hin;
    destruct (step_Ok_binary _ _ _ _ _ _ _ Hop Hin eq_refl Hs)
      as (b & x & y & result & Hb & Ha & Hc & target & v & Ht & Hv & Hset);
    exists b, x, y, target;
    cbv [call cls Instruction_ Instruction_call f op_add op_mul arg_count output]
      in Hc;
    injection Hc as Hp <- <-; simpl in Hv; injection Hv as <-;
    repeat split; auto; lia.
Qed.

(** X3: a turn on an input instruction whose callable is [lambda: v]
    stores [v] at the index that the word after the opcode gives and
    moves the counter two words on, whatever the mode digits of the
    opcode word, and leaves the world as it was.  It completes when
    that word is there and is an index of the memory; otherwise it
    raises what reading the word, or the store, raises. *)
Theorem input_turn cpu w opcode v :
  getitem (memory cpu) (pos cpu) = Return opcode ->
  opcodes !! (opcode mod 100) = Some (Instruction_ (py_const v) 0 true) ->
  (forall target mem',
      getitem (memory cpu) (pos cpu + 1) = Return target ->
      setitem (memory cpu) target v = Return mem' ->
      step opcodes cpu w = Ok (mkCPU mem' (pos cpu + 2)) w) /\
  (forall e,
      getitem (memory cpu) (pos cpu + 1) = Raise e ->
      step opcodes cpu w = Err e w) /\
  (forall target e,
      getitem (memory cpu) (pos cpu + 1) = Return target ->
      setitem (memory cpu) target v = Raise e ->
      step opcodes cpu w = Err e w) /\
  (forall cpu' w',
      step opcodes cpu w = Ok cpu' w' ->
      exists target,
        getitem (memory cpu) (pos cpu + 1) = Return target /\
        setitem (memory cpu) target v = Return (memory cpu') /\
        pos cpu' = pos cpu + 2 /\ w' = w).
Proof.
  intros Hop Hin.
  assert (Hstep :
            step opcodes cpu w =
            lift (let* target := getitem (memory cpu) (pos cpu + 1) in
                  let* mem' := setitem (memory cpu) target v in
                  Return (mkCPU mem' (pos cpu + 2))) w).
  { unfold step, CPU_getitem. rewrite Hop. cbn [bindR].
    rewrite Hin. unfold bind, BoundInstruction_call, bound_args, call,
      Instruction_call.
    cbn [arg_count output cls f Instruction_ range seq fmap list_fmap mapR bindR
         modes offset instruction enumerate memory pos py_const].
    replace (pos cpu + 1 + Z.of_nat 0) with (pos cpu + 1) by lia.
    replace (pos cpu + 1 + (Z.of_nat 0 + 1)) with (pos cpu + 2) by lia.
    destruct (getitem (memory cpu) (pos cpu + 1)); cbn [bindR lift int_of];
      [|reflexivity].
    destruct (setitem (memory cpu) _ _); reflexivity. }
  rewrite Hstep. split; [|split; [|split]].
  - intros target mem' Ht Hset. now rewrite Ht; cbn [bindR lift]; rewrite Hset.
  - now intros e ->.
  - intros target e Ht Hset. now rewrite Ht; cbn [bindR lift]; rewrite Hset.
  - intros cpu' w'.
    destruct (getitem (memory cpu) (pos cpu + 1)) as [target|];
      cbn [bindR lift]; [|discriminate].
    destruct (setitem (memory cpu) target v) as [mem'|] eqn:Hset;
      cbn [bindR lift]; [|discriminate].
    intros [= <- <-]. exists target. auto.
Qed.

(** X4: a completed turn on an output instruction moves the counter
    two words on and leaves the memory and standard input as they were;
    with [outputs.append] its operand value is added at the end of
    [outputs], with [print] it is printed as one more line. *)
Theorem output_turn cpu w cpu' w' opcode instr :
  getitem (memory cpu) (pos cpu) = Return opcode ->
  opcodes !! (opcode mod 100) = Some instr ->
  instr = Instruction_ outputs_append 1 false \/
  instr = Instruction_ py_print 1 false ->
  step opcodes cpu w = Ok cpu' w' ->
  exists b x,
    CPU_getitem opcodes cpu opcode = Return b /\
    bound_args b (memory cpu) = Return [x] /\
    memory cpu' = memory cpu /\
    pos cpu' = pos cpu + 2 /\
    stdin w' = stdin w /\
    (instr = Instruction_ outputs_append 1 false ->
       outputs w' = outputs w ++ [x] /\ stdout w' = stdout w) /\
    (instr = Instruction_ py_print 1 false ->
       stdout w' = stdout w ++ [[x]] /\ outputs w' = outputs w).
Proof.
  intros Hop Hin Hinstr Hs.
  destruct (step_Ok_args _ _ _ _ _ _ Hop Hin Hs)
    as (b & args & result & Hb & Hi & Ha & Hlen & Hc & Hw).
  assert (arg_count instr = 1%nat /\ output instr = false /\ cls instr = Plain)
    as (Hn & Hout & Hcls) by (destruct Hinstr as [-> | ->]; auto).
  rewrite Hn in Hlen. rewrite Hout in Hw.
  destruct args as [|x [|y args]]; try discriminate Hlen.
  exists b, x. unfold call, Instruction_call in Hc. rewrite Hcls, Hn, Hout in Hc.
  destruct Hinstr as [-> | ->]; cbn [f Instruction_ outputs_append py_print] in Hc;
    injection Hc as Hp _ <-; cbn [stdin stdout outputs];
    repeat split; auto; try lia;
    match goal with
    | Heq : Instruction_ _ _ _ = Instruction_ _ _ _ |- _ =>
        apply (f_equal (fun i => f i [0] empty_world)) in Heq;
        cbv in Heq; discriminate
    end.
Qed.

End Day05Base.

(** ** Day 05: the programs of the test cell, on every input *)

Section Day05TestPrograms.

Import Day05 Day05Tests.

Lemma run_S opcodes fuel cpu w :
  run opcodes (S fuel) cpu w =
  match step opcodes cpu w with
  | Ok cpu' w' => run opcodes fuel cpu' w'
  | Err Halt w' => Returned cpu w'
  | Err e w' => Raised e cpu w'
  end.
Proof. reflexivity. Qed.

Lemma step_decoded opcodes cpu w opcode instr b r :
  getitem (memory cpu) (pos cpu) = Return opcode ->
  opcodes !! (opcode mod 100) = Some instr ->
  bind instr opcode cpu = Return b ->
  BoundInstruction_call b cpu w = r ->
  step opcodes cpu w =
  match r with
  | Ok (newpos, mem') w' => Ok (mkCPU mem' newpos) w'
  | Err e w' => Err e w'
  end.
Proof.
  intros H1 H2 H3 <-. unfold step, CPU_getitem. rewrite H1. cbn [bindR].
  now rewrite H2, H3.
Qed.

(** The entries of [test_opcodes], the two comparisons written with the
    held tests. *)
Lemma test_opcodes_lookup inp :
  test_opcodes inp !! 1 = Some (Instruction_ op_add 2 true) /\
  test_opcodes inp !! 2 = Some (Instruction_ op_mul 2 true) /\
  test_opcodes inp !! 3 = Some (Instruction_ (py_const inp) 0 true) /\
  test_opcodes inp !! 4 = Some (Instruction_ outputs_append 1 false) /\
  test_opcodes inp !! 5 = Some (JumpInstruction py_bool 2) /\
  test_opcodes inp !! 6 = Some (JumpInstruction op_not 2) /\
  test_opcodes inp !! 7 =
    Some (Instruction_
            (fun args w => match args with
                           | [a; b] => Ok (VBool (held_ltb a b)) w
                           | _ => Err TypeError w
                           end) 2 true) /\
  test_opcodes inp !! 8 =
    Some (Instruction_
            (fun args w => match args with
                           | [a; b] => Ok (VBool (held_eqb a b)) w
                           | _ => Err TypeError w
                           end) 2 true) /\
  test_opcodes inp !! 99 = Some (Instruction_ Halt_halt 0 false).
Proof. repeat split; vm_compute; reflexivity. Qed.

(** One turn of [run] on a state whose counter and opcode word are
    known, the tests on the input left as they are. *)
Ltac turn inp :=
  rewrite run_S;
  lazymatch goal with
  | |- context [step ?T ?c ?w] =>
      let o := eval cbv -[held_ltb held_eqb] in (getitem (memory c) (pos c)) in
      lazymatch o with
      | Return ?opc =>
          let k := eval cbv in (opc mod 100) in
          let Hl := fresh "Hl" in
          eassert (Hl : T !! k = Some _)
            by (pose proof (test_opcodes_lookup inp) as HT;
                decompose [and] HT; eassumption);
          lazymatch type of Hl with
          | _ = Some ?instr =>
              let bb := eval cbv -[held_ltb held_eqb] in (bind instr opc c) in
              lazymatch bb with
              | Return ?b =>
                  let r := eval cbv -[held_ltb held_eqb]
                             in (BoundInstruction_call b c w) in
                  rewrite (step_decoded T c w opc instr b r eq_refl Hl eq_refl
                             eq_refl);
                  clear Hl; cbv beta iota
              end
          end
      end
  end.

Lemma execute_more_fuel_05 opcodes fuel k image w cpu' w' :
  execute opcodes fuel image w = Returned cpu' w' ->
  execute opcodes (fuel + k) image w = Returned cpu' w'.
Proof.
  unfold execute. intros H. rewrite run_more_fuel; [exact H|].
  intros c1 w1. rewrite H. discriminate.
Qed.

(** X5: on every integer input, the two programs of the test cell that
    test for equality with 8 (operands in position mode, operands in
    immediate mode) halt after four turns with [outputs] holding the
    single value 1 when the input is 8 and 0 when it is not; the two
    programs give the same output. *)
Theorem equality_tests inp stdin stdout k :
  let bit := if inp =? 8 then 1 else 0 in
  execute (test_opcodes inp) (4 + k) eq8_position (mkWorld stdin stdout [])
  = Returned (mkCPU [3; 9; 8; 9; 10; 9; 4; 9; 99; bit; 8] 8)
             (mkWorld stdin stdout [bit]) /\
  execute (test_opcodes inp) (4 + k) eq8_immediate (mkWorld stdin stdout [])
  = Returned (mkCPU [3; 3; 1108; bit; 8; 3; 4; 3; 99] 8)
             (mkWorld stdin stdout [bit]).
Proof.
  intros bit. split; apply execute_more_fuel_05;
    unfold execute, reset, eq8_position, eq8_immediate;
    do 4 turn inp; reflexivity.
Qed.

(** X6: on every integer input, the two programs of the test cell that
    test for less than 8 (position mode, immediate mode) halt after four
    turns with [outputs] holding the single value 1 when the input is
    below 8 and 0 when it is not; the two programs give the same
    output. *)
Theorem less_than_tests inp stdin stdout k :
  let bit := if inp <? 8 then 1 else 0 in
  execute (test_opcodes inp) (4 + k) lt8_position (mkWorld stdin stdout [])
  = Returned (mkCPU [3; 9; 7; 9; 10; 9; 4; 9; 99; bit; 8] 8)
             (mkWorld stdin stdout [bit]) /\
  execute (test_opcodes inp) (4 + k) lt8_immediate (mkWorld stdin stdout [])
  = Returned (mkCPU [3; 3; 1107; bit; 8; 3; 4; 3; 99] 8)
             (mkWorld stdin stdout [bit]).
Proof.
  intros bit. split; apply execute_more_fuel_05;
    unfold execute, reset, lt8_position, lt8_immediate;
    do 4 turn inp; reflexivity.
Qed.

(** X7: on every integer input, the larger program of the test cell
    halts at address 46 within ten turns with [outputs] holding the
    single value 999 when the input is below 8, 1000 when it is 8 and
    1001 when it is above 8; the memory keeps its length. *)
Theorem comparison_program inp stdin stdout k :
  exists mem',
    execute (test_opcodes inp) (10 + k) cmp8 (mkWorld stdin stdout [])
    = Returned (mkCPU mem' 46)
        (mkWorld stdin stdout
           [if inp <? 8 then 999 else if inp =? 8 then 1000 else 1001]) /\
    length mem' = length cmp8.
Proof.
  assert (H : exists mem' n,
    execute (test_opcodes inp) n cmp8 (mkWorld stdin stdout [])
    = Returned (mkCPU mem' 46)
        (mkWorld stdin stdout
           [if inp <? 8 then 999 else if inp =? 8 then 1000 else 1001]) /\
    length mem' = length cmp8 /\ (n <= 10)%nat).
  { unfold execute, reset, cmp8.
    destruct (Z.eqb_spec inp 8) as [->|Hne].
    - eexists _, 7%nat. do 2 turn 8. unfold held_eqb. do 5 turn 8.
      repeat split. lia.
    - destruct (Z.ltb_spec inp 8) as [Hlt|Hge].
      + eexists _, 8%nat. do 2 turn inp. unfold held_eqb.
        replace (inp =? 8) with false by lia.
        do 2 turn inp. unfold held_ltb.
        replace (8 <? inp) with false by lia.
        do 4 turn inp. repeat split. lia.
      + eexists _, 10%nat. do 2 turn inp. unfold held_eqb.
        replace (inp =? 8) with false by lia.
        do 2 turn inp. unfold held_ltb.
        replace (8 <? inp) with true by lia.
        do 6 turn inp. repeat split. lia. }
  destruct H as (mem' & n & H & Hlen & Hn). exists mem'. split; [|exact Hlen].
  replace (10 + k)%nat with (n + (10 - n + k))%nat by lia.
  now apply execute_more_fuel_05.
Qed.

End Day05TestPrograms.

(** ** Day 02: what a turn does *)

Section Day02Turn.

Import Day02.

Implicit Types (h : Heap) (cpu : CPU) (mem : list Z).

Lemma opcodes_lookup opcode op :
  opcodes !! opcode = Some op ->
  (opcode = 1 /\ op = mkInstruction op_add 3) \/
  (opcode = 2 /\ op = mkInstruction op_mul 3) \/
  (opcode = 99 /\ op = mkInstruction Halt_halt 0).
Proof.
  unfold opcodes. simpl. intros H.
  repeat (rewrite lookup_insert in H; case_decide;
          [injection H as <-; subst; auto|]).
  rewrite lookup_empty in H. discriminate.
Qed.

Lemma getitem_nonneg mem i :
  0 <= i -> getitem mem i = match mem !! Z.to_nat i with
                            | Some v => Return v
                            | None => Raise IndexError
                            end.
Proof.
  intros Hi. unfold getitem.
  destruct (Z_lt_dec i (Z.of_nat (length mem))).
  - now rewrite py_index_nonneg by lia.
  - rewrite py_index_outside by lia.
    now rewrite lookup_ge_None_2 by lia.
Qed.

Lemma getslice_nonneg mem a b :
  0 <= a -> 0 <= b ->
  getslice mem a b
  = take (Z.to_nat (Z.min b (Z.of_nat (length mem)))
          - Z.to_nat (Z.min a (Z.of_nat (length mem))))%nat
         (drop (Z.to_nat (Z.min a (Z.of_nat (length mem)))) mem).
Proof.
  intros Ha Hb. unfold getslice, slice_bound.
  replace (a <? 0) with false by lia. replace (b <? 0) with false by lia.
  reflexivity.
Qed.

Lemma getslice_length mem a b :
  0 <= a <= b ->
  Z.of_nat (length (getslice mem a b))
  = Z.min b (Z.of_nat (length mem)) - Z.min a (Z.of_nat (length mem)).
Proof.
  intros H. rewrite getslice_nonneg by lia.
  rewrite length_take, length_drop. lia.
Qed.

Lemma getslice_lookup mem a b i x :
  0 <= a <= b ->
  getslice mem a b !! i = Some x ->
  getitem mem (a + Z.of_nat i) = Return x.
Proof.
  intros H Hx. pose proof (lookup_lt_Some _ _ _ Hx) as Hlt.
  pose proof (getslice_length mem a b H) as Hlen.
  rewrite getslice_nonneg in Hx by lia.
  rewrite lookup_take_lt in Hx by lia. rewrite lookup_drop in Hx.
  rewrite getitem_nonneg by lia.
  replace (Z.to_nat (a + Z.of_nat i))
    with (Z.to_nat (Z.min a (Z.of_nat (length mem))) + i)%nat by lia.
  now rewrite Hx.
Qed.

Lemma getslice_full mem a n :
  0 <= a -> a + Z.of_nat n <= Z.of_nat (length mem) ->
  length (getslice mem a (a + Z.of_nat n)) = n.
Proof.
  intros Ha Hb. pose proof (getslice_length mem a (a + Z.of_nat n)). lia.
Qed.

(** A completed call of a three-parameter instruction. *)
Lemma Instruction_call_Return g h l ps h' :
  (forall args, length args <> 2%nat -> g args = Raise TypeError) ->
  Instruction_call (mkInstruction g 3) h l ps = Return h' ->
  (length ps <= 3)%nat ->
  exists a b t x y v,
    ps = [a; b; t] /\
    load h l a = Return x /\ load h l b = Return y /\
    g [x; y] = Return v /\
    store h l t v = Return h'.
Proof.
  intros Hg H Hlen. unfold Instruction_call in H. cbn [f] in H.
  destruct ps as [|a [|b [|t [|? ?]]]]; simpl in Hlen; try lia.
  - rewrite Hg in H by (simpl; lia). discriminate.
  - simpl in H. rewrite Hg in H by (simpl; lia). discriminate.
  - simpl in H. destruct (load h l a); simpl in H; [|discriminate].
    rewrite Hg in H by (simpl; lia). discriminate.
  - simpl in H.
    destruct (load h l a) as [x|] eqn:Hx; simpl in H; [|discriminate].
    destruct (load h l b) as [y|] eqn:Hy; simpl in H; [|discriminate].
    destruct (g [x; y]) as [v|] eqn:Hv; simpl in H; [|discriminate].
    exists a, b, t, x, y, v. repeat split; auto.
Qed.

Lemma op_add_arity args : length args <> 2%nat -> op_add args = Raise TypeError.
Proof. destruct args as [|a [|b [|c args]]]; simpl; intros; auto; lia. Qed.

Lemma op_mul_arity args : length args <> 2%nat -> op_mul args = Raise TypeError.
Proof. destruct args as [|a [|b [|c args]]]; simpl; intros; auto; lia. Qed.

Lemma step_arithmetic h cpu h' cpu' :
  0 <= pos cpu ->
  step h cpu = Return (h', cpu') ->
  exists opcode a b t x y,
    (opcode = 1 \/ opcode = 2) /\
    load h (memory cpu) (pos cpu) = Return opcode /\
    load h (memory cpu) (pos cpu + 1) = Return a /\
    load h (memory cpu) (pos cpu + 2) = Return b /\
    load h (memory cpu) (pos cpu + 3) = Return t /\
    load h (memory cpu) a = Return x /\
    load h (memory cpu) b = Return y /\
    store h (memory cpu) t (if opcode =? 1 then x + y else x * y) = Return h' /\
    cpu' = mkCPU (memory cpu) (pos cpu + 4).
Proof.
  intros Hpos H. unfold step in H.
  destruct (load h (memory cpu) (pos cpu)) as [opcode|] eqn:Hop; simpl in H;
    [|discriminate].
  destruct (opcodes !! opcode) as [op|] eqn:Hin; [|discriminate].
  destruct (Instruction_call op h (memory cpu) _) as [h1|] eqn:Hc; simpl in H;
    [|discriminate].
  injection H as <- <-.
  assert (Hslice : forall n : nat,
            (length (getslice (deref h (memory cpu)) (pos cpu + 1)
                       (pos cpu + 1 + Z.of_nat n)) <= n)%nat).
  { intros n. pose proof (getslice_length (deref h (memory cpu)) (pos cpu + 1)
                            (pos cpu + 1 + Z.of_nat n)). lia. }
  apply opcodes_lookup in Hin as [[-> ->]|[[-> ->]|[-> ->]]].
  - apply Instruction_call_Return in Hc
      as (a & b & t & x & y & v & Hps & Ha & Hb & Hv & Hst);
      [|apply op_add_arity|apply Hslice].
    exists 1, a, b, t, x, y. injection Hv as <-.
    assert (Hget : forall i z, [a; b; t] !! i = Some z ->
              load h (memory cpu) (pos cpu + 1 + Z.of_nat i) = Return z).
    { intros i z Hz. rewrite <- Hps in Hz.
      eapply getslice_lookup; [|exact Hz]. cbn [paramater_count]. lia. }
    pose proof (Hget 0%nat a eq_refl) as H0.
    pose proof (Hget 1%nat b eq_refl) as H1.
    pose proof (Hget 2%nat t eq_refl) as H2.
    replace (pos cpu + 1 + Z.of_nat 0) with (pos cpu + 1) in H0 by lia.
    replace (pos cpu + 1 + Z.of_nat 1) with (pos cpu + 2) in H1 by lia.
    replace (pos cpu + 1 + Z.of_nat 2) with (pos cpu + 3) in H2 by lia.
    cbn [paramater_count]. replace (pos cpu + 1 + Z.of_nat 3) with (pos cpu + 4) by lia.
    repeat split; auto.
  - apply Instruction_call_Return in Hc
      as (a & b & t & x & y & v & Hps & Ha & Hb & Hv & Hst);
      [|apply op_mul_arity|apply Hslice].
    exists 2, a, b, t, x, y. injection Hv as <-.
    assert (Hget : forall i z, [a; b; t] !! i = Some z ->
              load h (memory cpu) (pos cpu + 1 + Z.of_nat i) = Return z).
    { intros i z Hz. rewrite <- Hps in Hz.
      eapply getslice_lookup; [|exact Hz]. cbn [paramater_count]. lia. }
    pose proof (Hget 0%nat a eq_refl) as H0.
    pose proof (Hget 1%nat b eq_refl) as H1.
    pose proof (Hget 2%nat t eq_refl) as H2.
    replace (pos cpu + 1 + Z.of_nat 0) with (pos cpu + 1) in H0 by lia.
    replace (pos cpu + 1 + Z.of_nat 1) with (pos cpu + 2) in H1 by lia.
    replace (pos cpu + 1 + Z.of_nat 2) with (pos cpu + 3) in H2 by lia.
    cbn [paramater_count]. replace (pos cpu + 1 + Z.of_nat 3) with (pos cpu + 4) by lia.
    repeat split; auto.
  - exfalso. cbn [paramater_count] in Hc.
    pose proof (Hslice 0%nat) as H0.
    destruct (getslice _ _ _) as [|? ?]; simpl in H0; [|lia].
    discriminate Hc.
Qed.

End Day02Turn.

(** ** Day 02: how long a call runs, and what the overrides do *)

Section Day02Runs.

Import Day02.

Implicit Types (h : Heap) (cpu : CPU) (mem : list Z).

Lemma load_Return_valid h l i v :
  load h l i = Return v -> (l < length h)%nat.
Proof.
  unfold load, deref. intros H.
  destruct (h !! l) as [mem|] eqn:E; [eapply lookup_lt_Some; eauto|].
  apply getitem_Return_range in H. simpl in H. lia.
Qed.

Lemma store_Return_length h l i v h' :
  (l < length h)%nat ->
  store h l i v = Return h' ->
  length h' = length h /\ length (deref h' l) = length (deref h l).
Proof.
  intros Hl H. apply store_Return in H as (mem' & Hset & ->).
  rewrite length_insert, deref_insert_eq by assumption.
  split; [reflexivity|]. eapply setitem_length; eauto.
Qed.

(** A completed turn moves the counter four words on, inside the
    memory, whose length it keeps. *)
Lemma step_progress h cpu h' cpu' :
  0 <= pos cpu ->
  step h cpu = Return (h', cpu') ->
  memory cpu' = memory cpu /\
  pos cpu' = pos cpu + 4 /\
  pos cpu + 4 <= Z.of_nat (length (deref h (memory cpu))) /\
  length (deref h' (memory cpu')) = length (deref h (memory cpu)).
Proof.
  intros Hpos H.
  apply step_arithmetic in H
    as (opcode & a & b & t & x & y & _ & Hop & _ & _ & Ht & _ & _ & Hst & ->);
    [|exact Hpos].
  cbn [memory pos]. pose proof (load_Return_valid _ _ _ _ Hop) as Hl.
  apply store_Return_length in Hst as (_ & Hlen); [|exact Hl].
  apply getitem_Return_range in Ht. repeat split; [lia|exact Hlen].
Qed.

Lemma run_terminates fuel h cpu :
  0 <= pos cpu <= Z.of_nat (length (deref h (memory cpu))) ->
  Z.of_nat (length (deref h (memory cpu))) - pos cpu < 4 * Z.of_nat fuel ->
  forall h' cpu' o, run fuel h cpu = (h', cpu', o) ->
    o <> OutOfFuel /\
    memory cpu' = memory cpu /\
    pos cpu' mod 4 = pos cpu mod 4 /\
    pos cpu <= pos cpu' <= Z.of_nat (length (deref h (memory cpu))) /\
    length (deref h' (memory cpu')) = length (deref h (memory cpu)).
Proof.
  revert h cpu. induction fuel as [|fuel IH]; intros h cpu Hpos Hfuel h' cpu' o H.
  - lia.
  - simpl in H. destruct (step h cpu) as [[h1 c1]|e] eqn:Hs.
    + apply step_progress in Hs as (Hm & Hp & Hin & Hlen); [|lia].
      apply IH in H as (Ho & Hm' & Hmod & Hrange & Hlen');
        [|rewrite Hlen; lia|rewrite Hlen; lia].
      rewrite Hm', Hm, Hlen' , Hlen in *. repeat split; try lia; auto.
      rewrite Hmod, Hp. replace (pos cpu + 4) with (pos cpu + 1 * 4) by lia.
      apply Z_mod_plus_full.
    + assert (h' = h /\ cpu' = cpu /\ o <> OutOfFuel) as (-> & -> & Ho).
      { destruct e; try (injection H as <- <- <-; repeat split; discriminate).
        destruct (load h (memory cpu) 0); injection H as <- <- <-;
          repeat split; discriminate. }
      repeat split; auto; lia.
Qed.

Lemma execute_bounds fuel h self l noun verb :
  Z.of_nat (length (deref h l)) < 4 * Z.of_nat fuel ->
  forall h' self' o,
    execute fuel h self l noun verb = (h', self', o) ->
    o <> OutOfFuel /\
    pos self' mod 4 = 0 /\
    0 <= pos self' <= Z.of_nat (length (deref h l)) /\
    length (deref h' (memory self')) = length (deref h l).
Proof.
  intros Hfuel h' self' o. unfold execute, reset, alloc. cbn [memory].
  set (h0 := h ++ [deref h l]).
  assert (Hl0 : (length h < length h0)%nat)
    by (unfold h0; rewrite length_app; simpl; lia).
  assert (Hd0 : deref h0 (length h) = deref h l) by apply deref_alloc_new.
  assert (Hov : forall ha i v hb,
            (length h < length ha)%nat ->
            override ha (length h) i v = Return hb ->
            (length h < length hb)%nat /\
            length (deref hb (length h)) = length (deref ha (length h))).
  { intros ha i [v|] hb Hl; simpl; [|intros [= <-]; auto].
    intros Hst. destruct (store_Return_length _ _ _ _ _ Hl Hst) as [-> ->].
    auto. }
  destruct (override h0 (length h) 1 noun) as [h1|] eqn:En.
  2:{ intros [= <- <- <-]. cbn [memory pos]. rewrite Hd0.
      repeat split; try discriminate; lia. }
  apply Hov in En as (Hl1 & Hd1); [|exact Hl0].
  destruct (override h1 (length h) 2 verb) as [h2|] eqn:Ev.
  2:{ intros [= <- <- <-]. cbn [memory pos]. rewrite Hd1, Hd0.
      repeat split; try discriminate; lia. }
  apply Hov in Ev as (Hl2 & Hd2); [|exact Hl1].
  intros Hrun. apply run_terminates in Hrun
    as (Ho & Hm & Hmod & Hrange & Hlen); cbn [memory pos] in *;
    rewrite ?Hd2, ?Hd1, ?Hd0 in *; try lia.
  repeat split; auto; lia.
Qed.

(** X8: a call of the [execute] of Day 02 ends within
    [len // 4 + 1] turns, [len] being the length of the image: with that
    much fuel the model never runs out.  The counter the call leaves is
    a multiple of 4 inside the memory, and the memory has the length of
    the image. *)
Theorem execute_terminates fuel h self l noun verb :
  Z.of_nat (length (deref h l)) < 4 * Z.of_nat fuel ->
  forall h' self' o,
    execute fuel h self l noun verb = (h', self', o) ->
    o <> OutOfFuel /\
    pos self' mod 4 = 0 /\
    0 <= pos self' <= Z.of_nat (length (deref h l)) /\
    length (deref h' (memory self')) = length (deref h l).
Proof. apply execute_bounds. Qed.

Lemma setitem_nonneg mem i v :
  0 <= i < Z.of_nat (length mem) ->
  setitem mem i v = Return (<[Z.to_nat i:=v]> mem).
Proof. intros H. unfold setitem. now rewrite py_index_nonneg. Qed.

Lemma store_nonneg h l i v :
  0 <= i < Z.of_nat (length (deref h l)) ->
  store h l i v = Return (<[l:=<[Z.to_nat i:=v]> (deref h l)]> h).
Proof. intros H. unfold store. now rewrite setitem_nonneg. Qed.

Lemma store_outside h l i v :
  Z.of_nat (length (deref h l)) <= i -> store h l i v = Raise IndexError.
Proof. intros H. unfold store. now rewrite setitem_outside by lia. Qed.

(** X9: on an image of three cells or more, a call of [execute] with
    the overrides [noun] and [verb] is seen by the caller as the call
    with no override on the image with [noun] written at address 1 and
    [verb] at address 2; on a shorter image the call raises [IndexError]
    at an override, before any turn. *)
Theorem overrides_patch_the_copy fuel h self l image noun verb :
  h !! l = Some image ->
  ((3 <= length image)%nat ->
     observe (execute fuel h self l (Some noun) (Some verb))
     = observe (execute fuel [<[2%nat:=verb]> (<[1%nat:=noun]> image)] self 0%nat
                  None None)) /\
  ((length image < 3)%nat ->
     exists mem',
       observe (execute fuel h self l (Some noun) (Some verb))
       = (mem', 0, Raised IndexError) /\
       length mem' = length image).
Proof.
  intros Hl.
  assert (Hd : deref h l = image) by (unfold deref; now rewrite Hl).
  unfold execute, reset, alloc. cbn [memory override]. rewrite Hd.
  assert (Hnew : deref (h ++ [image]) (length h) = image)
    by apply deref_alloc_new.
  assert (Hlt : (length h < length (h ++ [image]))%nat)
    by (rewrite length_app; simpl; lia).
  split.
  - intros Hlen. rewrite store_nonneg by (rewrite Hnew; lia). rewrite Hnew.
    rewrite store_nonneg
      by (rewrite deref_insert_eq by exact Hlt; rewrite length_insert; lia).
    rewrite deref_insert_eq by exact Hlt.
    change (Z.to_nat 1) with 1%nat. change (Z.to_nat 2) with 2%nat.
    set (image' := <[2%nat:=verb]> (<[1%nat:=noun]> image)).
    cbn [deref lookup list_lookup default length app].
    apply run_view. red. cbn [memory pos length].
    rewrite !length_insert, deref_insert_eq by (rewrite length_insert; exact Hlt).
    repeat split; [exact Hlt|lia].
  - intros Hlen.
    destruct (Nat.lt_ge_cases 1 (length image)) as [H2|H2].
    + rewrite store_nonneg by (rewrite Hnew; lia). rewrite Hnew.
      rewrite store_outside
        by (rewrite deref_insert_eq by exact Hlt; rewrite length_insert; lia).
      eexists. cbn [observe memory pos]. rewrite deref_insert_eq by exact Hlt.
      split; [reflexivity|]. apply length_insert.
    + rewrite store_outside by (rewrite Hnew; lia).
      eexists. cbn [observe memory pos]. rewrite Hnew. split; reflexivity.
Qed.

End Day02Runs.

(** ** Day 02: every kind of turn *)

Section Day02TurnCases.

Import Day02.

Implicit Types (h : Heap) (cpu : CPU) (mem : list Z).






End Day02TurnCases.

(** ** The empty image *)

(** X11: on the empty image (which is also what [reset] makes when it
    is given nothing), both interpreters raise [IndexError] before any
    instruction runs, whatever the table and the overrides. *)
Theorem empty_image_raises :
  (forall opcodes fuel w,
      Day05.run opcodes (S fuel) (Day05.reset None) w
      = Day05.Raised IndexError (Day05.mkCPU [] 0) w) /\
  (forall opcodes fuel w,
      Day05.execute opcodes (S fuel) [] w
      = Day05.Raised IndexError (Day05.mkCPU [] 0) w) /\
  (forall fuel h self l noun verb,
      h !! l = Some [] ->
      observe (Day02.execute (S fuel) h self l noun verb)
      = ([], 0, Day02.Raised IndexError)).
Proof.
  split; [reflexivity|]. split; [reflexivity|].
  intros fuel h self l noun verb Hl.
  rewrite (execute_view _ h self l [[]] self 0%nat);
    [|eapply lookup_lt_Some; eauto|simpl; lia
     |unfold Day02.deref; now rewrite Hl].
  destruct noun as [n|], verb as [v|]; reflexivity.
Qed.

(** ** Day 02 programs under the Day 05 interpreter *)

Section Day02InDay05.

Variable opcodes : gmap Z Day05.Instruction.

Hypothesis table_1 : opcodes !! 1 = Some (Day05.Instruction_ Day05.op_add 2 true).
Hypothesis table_2 : opcodes !! 2 = Some (Day05.Instruction_ Day05.op_mul 2 true).
Hypothesis table_99 :
  opcodes !! 99 = Some (Day05.Instruction_ Day05.Halt_halt 0 false).

(** A turn of Day 05 on a two-operand instruction with an output, both
    operands in position mode. *)
Lemma step_position_binary cpu w opcode op a b t x y result w1 v mem' :
  opcodes !! (opcode mod 100) = Some (Day05.Instruction_ op 2 true) ->
  opcode / 100 = 0 ->
  getitem (Day05.memory cpu) (Day05.pos cpu) = Return opcode ->
  getitem (Day05.memory cpu) (Day05.pos cpu + 1) = Return a ->
  getitem (Day05.memory cpu) (Day05.pos cpu + 2) = Return b ->
  getitem (Day05.memory cpu) (Day05.pos cpu + 3) = Return t ->
  getitem (Day05.memory cpu) a = Return x ->
  getitem (Day05.memory cpu) b = Return y ->
  op [x; y] w = Day05.Ok result w1 ->
  int_of result = Return v ->
  setitem (Day05.memory cpu) t v = Return mem' ->
  Day05.step opcodes cpu w = Day05.Ok (Day05.mkCPU mem' (Day05.pos cpu + 4)) w1.
Proof.
  intros Hin Hmodes Hop Ha Hb Ht Hx Hy Hf Hv Hset.
  unfold Day05.step, Day05.CPU_getitem. rewrite Hop. cbn [bindR]. rewrite Hin.
  unfold Day05.bind. rewrite Hmodes.
  cbn [Day05.arg_count Day05.Instruction_ range seq fmap list_fmap mapR bindR].
  change (Day05.ParameterMode_of (0 / 10 ^ Z.of_nat 0 mod 10))
    with (Return Day05.position).
  change (Day05.ParameterMode_of (0 / 10 ^ Z.of_nat 1 mod 10))
    with (Return Day05.position).
  cbn [bindR]. unfold Day05.BoundInstruction_call, Day05.bound_args.
  cbn [Day05.modes Day05.offset Day05.instruction enumerate mapR Day05.memory
       Day05.pos].
  replace (Day05.pos cpu + 1 + 1) with (Day05.pos cpu + 2) by lia.
  rewrite Ha, Hb. cbn [bindR Day05.get]. rewrite Hx, Hy. cbn [bindR].
  unfold Day05.call, Day05.Instruction_call.
  cbn [Day05.cls Day05.f Day05.arg_count Day05.output Day05.Instruction_].
  rewrite Hf.
  replace (Day05.pos cpu + 1 + Z.of_nat 2) with (Day05.pos cpu + 3) by lia.
  rewrite Ht. cbn [bindR Day05.lift]. rewrite Hv. cbn [bindR Day05.lift].
  rewrite Hset. cbn [bindR Day05.lift]. f_equal. f_equal. lia.
Qed.

Lemma step_agrees h cpu h' cpu' w :
  0 <= Day02.pos cpu ->
  Day02.step h cpu = Return (h', cpu') ->
  Day05.step opcodes (by_value h cpu) w = Day05.Ok (by_value h' cpu') w.
Proof.
  intros Hpos Hs.
  apply step_arithmetic in Hs
    as (opcode & a & b & t & x & y & Hcode & Hop & Ha & Hb & Ht & Hx & Hy
        & Hst & ->); [|exact Hpos].
  pose proof (load_Return_valid _ _ _ _ Hop) as Hl.
  apply store_Return in Hst as (mem' & Hset & ->).
  unfold by_value. cbn [Day02.memory Day02.pos].
  rewrite deref_insert_eq by exact Hl. unfold Day02.load in *.
  destruct Hcode as [-> | ->].
  - apply (step_position_binary
             (Day05.mkCPU (Day02.deref h (Day02.memory cpu)) (Day02.pos cpu))
             w 1 Day05.op_add a b t x y (VInt (x + y)) w (x + y) mem');
      auto; reflexivity.
  - apply (step_position_binary
             (Day05.mkCPU (Day02.deref h (Day02.memory cpu)) (Day02.pos cpu))
             w 2 Day05.op_mul a b t x y (VInt (x * y)) w (x * y) mem');
      auto; reflexivity.
Qed.

Lemma step_Halt_99 h cpu :
  Day02.step h cpu = Raise Halt ->
  Day02.load h (Day02.memory cpu) (Day02.pos cpu) = Return 99.
Proof.
  unfold Day02.step. intros H.
  destruct (Day02.load h _ _) as [opcode|e] eqn:Hop; simpl in H.
  2:{ injection H as ->. apply getitem_Raise in Hop. discriminate. }
  destruct (Day02.opcodes !! opcode) as [op|] eqn:Hin; [|discriminate].
  apply opcodes_lookup in Hin as [[-> ->]|[[-> ->]|[-> ->]]]; [| |reflexivity];
    exfalso;
    destruct (Day02.Instruction_call _ h _ _) as [h1|e] eqn:Hc; simpl in H;
    try discriminate; injection H as ->;
    unfold Day02.Instruction_call in Hc; cbn [Day02.f] in Hc;
    destruct (getslice _ _ _) as [|p ps]; try discriminate Hc;
    (destruct (mapR _ _) as [vals|e] eqn:Hm; simpl in Hc;
     [|injection Hc as ->; apply mapR_Raise in Hm as (z & _ & Hz);
       apply getitem_Raise in Hz; discriminate]);
    (destruct vals as [|x [|y [|? ?]]]; simpl in Hc; try discriminate Hc);
    unfold Day02.store in Hc;
    (destruct (setitem _ _ _) eqn:Hset; simpl in Hc; [discriminate|]);
    injection Hc as ->; apply setitem_Raise in Hset; discriminate.
Qed.

Lemma step_Halt_agrees h cpu w :
  Day02.step h cpu = Raise Halt ->
  Day05.step opcodes (by_value h cpu) w = Day05.Err Halt w.
Proof.
  intros H. apply step_Halt_99 in H.
  unfold Day05.step, Day05.CPU_getitem, by_value. cbn [Day05.memory Day05.pos].
  unfold Day02.load in H. rewrite H. cbn [bindR].
  change (99 mod 100) with 99. rewrite table_99. reflexivity.
Qed.

Lemma run_agrees fuel h cpu w h' cpu' r :
  0 <= Day02.pos cpu ->
  Day02.run fuel h cpu = (h', cpu', Day02.Returned r) ->
  Day05.run opcodes fuel (by_value h cpu) w = Day05.Returned (by_value h' cpu') w /\
  getitem (Day05.memory (by_value h' cpu')) 0 = Return r.
Proof.
  revert h cpu. induction fuel as [|fuel IH]; intros h cpu Hpos H; simpl in H.
  - discriminate.
  - simpl. destruct (Day02.step h cpu) as [[h1 c1]|e] eqn:Hs.
    + rewrite (step_agrees _ _ _ _ w Hpos Hs).
      apply IH; [|exact H].
      apply step_progress in Hs as (_ & -> & _); lia.
    + destruct e; try discriminate H.
      rewrite (step_Halt_agrees _ _ w Hs).
      destruct (Day02.load h (Day02.memory cpu) 0) as [r0|] eqn:H0;
        [|discriminate].
      injection H as <- <- <-. split; [reflexivity|exact H0].
Qed.

(** X12: a program that the interpreter of Day 02 runs to [Halt] runs
    the same way under the interpreter of Day 05 with a table that has
    the notebook's entries for 1, 2 and 99: same number of turns, same
    final memory and counter, and address 0 holds what Day 02
    returns. *)
Theorem day05_runs_day02_programs :
  (forall fuel h cpu w h' cpu' r,
      0 <= Day02.pos cpu ->
      Day02.run fuel h cpu = (h', cpu', Day02.Returned r) ->
      Day05.run opcodes fuel (by_value h cpu) w
        = Day05.Returned (by_value h' cpu') w /\
      getitem (Day05.memory (by_value h' cpu')) 0 = Return r) /\
  (forall fuel h self l image w h' self' r,
      h !! l = Some image ->
      Day02.execute fuel h self l None None = (h', self', Day02.Returned r) ->
      Day05.execute opcodes fuel image w
        = Day05.Returned (by_value h' self') w /\
      getitem (Day05.memory (by_value h' self')) 0 = Return r).
Proof.
  split; [intros *; apply run_agrees|].
  intros fuel h self l image w h' self' r Hl He.
  unfold Day02.execute, Day02.reset, Day02.alloc in He.
  cbn [Day02.override Day02.memory] in He.
  apply (run_agrees _ _ _ w) in He; [|simpl; lia].
  unfold by_value at 1 in He. cbn [Day02.memory Day02.pos] in He.
  rewrite deref_alloc_new in He. unfold Day02.deref in He. rewrite Hl in He.
  exact He.
Qed.

End Day02InDay05.

(** ** Day 02: the search of part 2 *)

Section Day02Search.

Import Day02 Day02Part2.

Lemma product_elem n noun verb :
  (noun, verb) ∈ product n ->
  0 <= noun < Z.of_nat n /\ 0 <= verb < Z.of_nat n.
Proof.
  unfold product. intros H.
  apply list_elem_of_bind in H as (a & H & Ha).
  apply list_elem_of_bind in H as (b & H & Hb).
  apply list_elem_of_singleton in H. injection H as -> ->.
  apply list_elem_of_In, range_In in Ha as (i & Hi & ->).
  apply list_elem_of_In, range_In in Hb as (j & Hj & ->). lia.
Qed.

Lemma execute_ends fuel h cpu l image noun verb h' cpu' o :
  h !! l = Some image ->
  execute fuel h cpu l (Some noun) (Some verb) = (h', cpu', o) ->
  o = ends fuel image (noun, verb) /\ h' !! l = Some image.
Proof.
  intros Hl He. split.
  - pose proof (execute_view fuel h cpu l [image] (mkCPU 0 0) 0%nat
                  (Some noun) (Some verb)) as V.
    rewrite He in V. unfold ends. cbn [fst snd].
    destruct (execute fuel [image] _ _ _ _) as [[h2 c2] o2].
    cbn [observe snd] in *.
    assert (o = o2); [|assumption].
    enough ((deref h' (memory cpu'), pos cpu', o)
            = (deref h2 (memory c2), pos c2, o2)) as E by (now injection E).
    apply V; [eapply lookup_lt_Some; eauto|simpl; lia|].
    unfold deref. now rewrite Hl.
  - apply execute_frame in He as (_ & Hold). now apply Hold.
Qed.

Lemma bruteforce_loop_spec fuel target image l rest :
  forall h cpu noun verb h' r,
    h !! l = Some image ->
    bruteforce_loop fuel target h cpu l noun verb rest = (h', r) ->
    h' !! l = Some image /\
    exists before q after,
      (noun, verb) :: rest = before ++ q :: after /\
      (forall p, p ∈ before ->
         exists x, ends fuel image p = Returned x /\ x <> target) /\
      match r with
      | Answer z =>
          z = 100 * fst q + snd q /\
          (ends fuel image q = Returned target \/
           (after = [] /\
            exists x, ends fuel image q = Returned x /\ x <> target))
      | Failed e => ends fuel image q = Raised e
      | Unbound => False
      | Unfinished => ends fuel image q = OutOfFuel
      end.
Proof.
  induction rest as [|[noun' verb'] rest IH]; intros h cpu noun verb h' r Hl H;
    simpl in H;
    destruct (execute fuel h cpu l (Some noun) (Some verb)) as [[h1 c1] o] eqn:He;
    destruct (execute_ends _ _ _ _ _ _ _ _ _ _ Hl He) as (Ho & Hl1);
    destruct o as [result| e |].
  - assert (h' = h1 /\ r = Answer (100 * noun + verb)) as [-> ->]
      by (destruct (result =? target); now injection H as <- <-).
    split; [exact Hl1|]. exists [], (noun, verb), [].
    split; [reflexivity|]. split; [intros p Hp; inversion Hp|].
    split; [reflexivity|].
    destruct (Z.eqb_spec result target) as [->|Hne]; [now left|].
    right. split; [reflexivity|]. eauto.
  - injection H as <- <-. split; [exact Hl1|].
    exists [], (noun, verb), []. split; [reflexivity|].
    split; [intros p Hp; inversion Hp|]. now symmetry.
  - injection H as <- <-. split; [exact Hl1|].
    exists [], (noun, verb), []. split; [reflexivity|].
    split; [intros p Hp; inversion Hp|]. now symmetry.
  - destruct (Z.eqb_spec result target) as [->|Hne].
    + injection H as <- <-. split; [exact Hl1|].
      exists [], (noun, verb), ((noun', verb') :: rest). split; [reflexivity|].
      split; [intros p Hp; inversion Hp|]. split; [reflexivity|]. now left.
    + apply IH in H as (Hl' & before & q & after & Hsplit & Hbefore & Hr);
        [|exact Hl1].
      split; [exact Hl'|].
      exists ((noun, verb) :: before), q, after.
      split; [simpl; now rewrite Hsplit|]. split; [|exact Hr].
      intros p Hp. apply elem_of_cons in Hp as [->|Hp]; [eauto|auto].
  - injection H as <- <-. split; [exact Hl1|].
    exists [], (noun, verb), ((noun', verb') :: rest). split; [reflexivity|].
    split; [intros p Hp; inversion Hp|]. now symmetry.
  - injection H as <- <-. split; [exact Hl1|].
    exists [], (noun, verb), ((noun', verb') :: rest). split; [reflexivity|].
    split; [intros p Hp; inversion Hp|]. now symmetry.
Qed.

Lemma product_last : last (product 100) = Some (99, 99).
Proof. vm_compute. reflexivity. Qed.

(** X13: [bruteforce] leaves the image it is given as it was.  When it
    returns [z], then [z = 100 * noun + verb] for a pair of
    [product(range(100), repeat=2)] with [noun = z // 100] and
    [verb = z % 100]; every pair before it ran to a result other than
    the target, and either the run of the pair itself returned the
    target or the pair is the last one, (99, 99), and no pair gave the
    target: the two cases return the same 9999.  An exception of a run
    ends the search with that exception.  With fuel above a quarter of
    the length of the image the model never runs out. *)
Theorem bruteforce_first_match fuel target h l image h' r :
  h !! l = Some image ->
  bruteforce fuel target h l = (h', r) ->
  h' !! l = Some image /\
  (Z.of_nat (length image) < 4 * Z.of_nat fuel -> r <> Unfinished) /\
  exists before noun verb after,
    product 100 = before ++ (noun, verb) :: after /\
    0 <= noun < 100 /\ 0 <= verb < 100 /\
    (forall p, p ∈ before ->
       exists x, ends fuel image p = Returned x /\ x <> target) /\
    match r with
    | Answer z =>
        z = 100 * noun + verb /\ z / 100 = noun /\ z mod 100 = verb /\
        (ends fuel image (noun, verb) = Returned target \/
         (z = 9999 /\
          exists x, ends fuel image (noun, verb) = Returned x /\ x <> target))
    | Failed e => ends fuel image (noun, verb) = Raised e
    | Unbound => False
    | Unfinished => ends fuel image (noun, verb) = OutOfFuel
    end.
Proof.
  intros Hl H. unfold bruteforce in H.
  pose proof product_last as Hlast.
  destruct (product 100) as [|[noun0 verb0] rest] eqn:Hprod;
    [discriminate Hlast|].
  apply (bruteforce_loop_spec _ _ image) in H
    as (Hl' & before & [noun verb] & after & Hsplit & Hbefore & Hr);
    [|exact Hl].
  assert (Hq : 0 <= noun < 100 /\ 0 <= verb < 100).
  { apply (product_elem 100). rewrite Hprod, Hsplit.
    apply elem_of_app. right. apply elem_of_cons. now left. }
  split; [exact Hl'|]. split.
  - intros Hfuel ->.
    unfold ends in Hr. cbn [fst snd] in Hr.
    destruct (execute fuel [image] (mkCPU 0 0) 0%nat (Some noun) (Some verb))
      as [[h2 c2] o] eqn:He.
    apply execute_bounds in He as (Ho & _); [|exact Hfuel].
    now apply Ho.
  - exists before, noun, verb, after. split; [exact Hsplit|].
    split; [apply Hq|]. split; [apply Hq|]. split; [exact Hbefore|].
    destruct r as [z| e | |]; try exact Hr.
    cbn [fst snd] in Hr. destruct Hr as (-> & Hr).
    split; [reflexivity|].
    split; [symmetry; apply Z.div_unique with verb; lia|].
    split; [symmetry; apply Z.mod_unique with noun; lia|].
    destruct Hr as [Hr|(-> & Hr)]; [now left|]. right. split; [|exact Hr].
    rewrite Hsplit, last_snoc in Hlast.
    now injection Hlast as -> ->.
Qed.

End Day02Search.

(** ** Day 02: the cell that looks for self-modifying code *)

Section Day02SelfModifying.

Import Day02 Day02Check.

Lemma every_fourth_lookup (mem : list Z) (k : nat) :
  every_fourth_from_3 mem !! k = mem !! (4 * k + 3)%nat.
Proof.
  revert mem. induction k as [|k IH]; intros mem.
  - destruct mem as [|a [|b [|c [|t rest]]]]; reflexivity.
  - replace (4 * S k + 3)%nat with (S (S (S (S (4 * k + 3))))) by lia.
    destruct mem as [|a [|b [|c [|t rest]]]]; try reflexivity.
    simpl. apply IH.
Qed.

Lemma existsb_false {A} (g : A -> bool) (l : list A) (i : nat) x :
  existsb g l = false -> l !! i = Some x -> g x = false.
Proof.
  intros H Hx. destruct (g x) eqn:E; [|reflexivity].
  rewrite <- H. symmetry. apply existsb_exists. exists x. split; [|exact E].
  apply list_elem_of_In, list_elem_of_lookup. eauto.
Qed.

(** What the third message says of the target of the [k]-th
    instruction. *)
Lemma verdict_target image k t :
  self_modifying image = NotSelfModifying ->
  image !! (4 * k + 3)%nat = Some t ->
  t = 0 \/ (t mod 4 <> 0 /\ t <= 4 * Z.of_nat k + 3).
Proof.
  unfold self_modifying. intros H Ht.
  rewrite <- every_fourth_lookup in Ht.
  destruct (existsb _ (every_fourth_from_3 image)) eqn:E1; [discriminate|].
  destruct (existsb _ (enumerate 0 _)) eqn:E2; [discriminate|].
  pose proof (existsb_false _ _ _ _ E1 Ht) as H1.
  pose proof (existsb_false _ _ _ _ E2 (enumerate_lookup _ 0 _ _ Ht)) as H2.
  cbv beta iota in H1, H2. lia.
Qed.

Lemma step_keeps_untouched image image' h cpu h' cpu' :
  self_modifying image = NotSelfModifying ->
  (forall t, t ∈ every_fourth_from_3 image -> 0 <= t) ->
  (forall j, (3 <= j)%nat -> image' !! j = image !! j) ->
  0 <= pos cpu -> pos cpu mod 4 = 0 ->
  untouched_from image' h cpu ->
  step h cpu = Return (h', cpu') ->
  untouched_from image' h' cpu' /\ 0 <= pos cpu' /\ pos cpu' mod 4 = 0.
Proof.
  intros Hv Hnonneg Himage Hpos Hmod Hun Hs.
  apply step_arithmetic in Hs
    as (opcode & a & b & t & x & y & _ & Hop & _ & _ & Ht & _ & _ & Hst & ->);
    [|exact Hpos].
  cbn [memory pos].
  pose proof (load_Return_valid _ _ _ _ Hop) as Hl.
  apply store_Return in Hst as (mem' & Hset & ->).
  split; [|split; [lia|]].
  2:{ replace (pos cpu + 4) with (pos cpu + 1 * 4) by lia.
      now rewrite Z_mod_plus_full. }
  set (k := Z.to_nat (pos cpu / 4)).
  assert (Hk : pos cpu = 4 * Z.of_nat k).
  { unfold k. rewrite Z2Nat.id by (apply Z.div_pos; lia).
    apply Z.div_exact in Hmod; lia. }
  assert (Htarget : image !! (4 * k + 3)%nat = Some t).
  { rewrite <- Himage by lia. rewrite <- Hun by lia.
    unfold load in Ht. rewrite getitem_nonneg in Ht by lia.
    replace (Z.to_nat (pos cpu + 3)) with (4 * k + 3)%nat in Ht by lia.
    destruct (deref h (memory cpu) !! (4 * k + 3)%nat); congruence. }
  assert (H0 : 0 <= t).
  { apply Hnonneg. apply list_elem_of_lookup. exists k.
    now rewrite every_fourth_lookup. }
  pose proof (verdict_target _ _ _ Hv Htarget) as Hsmall.
  intros j Hj. cbn [memory pos] in *.
  rewrite deref_insert_eq by exact Hl.
  pose proof (setitem_length _ _ _ _ Hset) as Hlen.
  apply getitem_Return_range in Ht.
  assert (Hrange : 0 <= t < Z.of_nat (length (deref h (memory cpu)))).
  { split; [exact H0|]. unfold setitem in Hset.
    destruct (py_index _ t) eqn:E; [|discriminate].
    apply py_index_Some_inv in E. lia. }
  rewrite setitem_nonneg in Hset by exact Hrange. injection Hset as <-.
  rewrite list_lookup_insert_ne by lia. apply Hun. lia.
Qed.

Lemma run_keeps_untouched image image' fuel :
  self_modifying image = NotSelfModifying ->
  (forall t, t ∈ every_fourth_from_3 image -> 0 <= t) ->
  (forall j, (3 <= j)%nat -> image' !! j = image !! j) ->
  forall h cpu h' cpu' o,
    0 <= pos cpu -> pos cpu mod 4 = 0 ->
    untouched_from image' h cpu ->
    run fuel h cpu = (h', cpu', o) ->
    untouched_from image' h' cpu'.
Proof.
  intros Hv Hnonneg Himage.
  induction fuel as [|fuel IH]; intros h cpu h' cpu' o Hpos Hmod Hun H;
    simpl in H.
  - now injection H as <- <- _.
  - destruct (step h cpu) as [[h1 c1]|e] eqn:Hs.
    + destruct (step_keeps_untouched _ _ _ _ _ _ Hv Hnonneg Himage Hpos Hmod
                  Hun Hs) as (Hun1 & Hpos1 & Hmod1).
      eapply IH; eauto.
    + assert (h' = h /\ cpu' = cpu) as [-> ->]; [|exact Hun].
      destruct e; try (injection H as <- <- _; auto).
      destruct (load h (memory cpu) 0); injection H as <- <- _; auto.
Qed.

Lemma patch_length i v mem : length (patch i v mem) = length mem.
Proof. destruct v; simpl; [apply length_insert|reflexivity]. Qed.

Lemma patch_short i v mem : (length mem <= i)%nat -> patch i v mem = mem.
Proof. intros H. destruct v; simpl; [now apply list_insert_ge|reflexivity]. Qed.

Lemma patch_lookup_ne i v mem j : i <> j -> patch i v mem !! j = mem !! j.
Proof.
  intros H. destruct v; simpl; [now apply list_lookup_insert_ne|reflexivity].
Qed.

(** An override that goes through leaves the patched list; one that
    raises found no such cell. *)
Lemma override_patches h l (i : nat) v :
  (l < length h)%nat ->
  match override h l (Z.of_nat i) v with
  | Return h' => (l < length h')%nat /\ deref h' l = patch i v (deref h l)
  | Raise _ => (length (deref h l) <= i)%nat
  end.
Proof.
  intros Hl. destruct v as [v|]; simpl; [|auto].
  destruct (Z_lt_dec (Z.of_nat i) (Z.of_nat (length (deref h l)))).
  - rewrite store_nonneg by lia. rewrite Nat2Z.id.
    rewrite length_insert, deref_insert_eq by exact Hl. auto.
  - rewrite store_outside by lia. lia.
Qed.

(** X14: when the cell prints its third message for an image and no
    target of the image (the cells 3, 7, 11, ...) is negative, a
    completed turn at a counter that is a multiple of 4 leaves every
    cell from the next counter on as the image has it, and so does a
    whole call of [execute], whatever the overrides: every instruction
    that runs is the one the image holds. *)
Theorem check_is_sound_without_negative_targets image :
  self_modifying image = NotSelfModifying ->
  (forall t, t ∈ every_fourth_from_3 image -> 0 <= t) ->
  (forall image' h cpu h' cpu',
      (forall j, (3 <= j)%nat -> image' !! j = image !! j) ->
      0 <= pos cpu -> pos cpu mod 4 = 0 ->
      untouched_from image' h cpu ->
      step h cpu = Return (h', cpu') ->
      untouched_from image' h' cpu' /\ 0 <= pos cpu' /\ pos cpu' mod 4 = 0) /\
  (forall fuel h self l noun verb h' self' o,
      h !! l = Some image ->
      execute fuel h self l noun verb = (h', self', o) ->
      untouched_from (patched noun verb image) h' self').
Proof.
  intros Hv Hnonneg. split.
  - intros image' h cpu h' cpu' Himage. now apply step_keeps_untouched with image.
  - intros fuel h self l noun verb h' self' o Hl.
    assert (Hd : deref h l = image) by (unfold deref; now rewrite Hl).
    unfold execute, reset, alloc. cbn [memory]. rewrite Hd.
    assert (Hnew : deref (h ++ [image]) (length h) = image)
      by apply deref_alloc_new.
    assert (Hlt : (length h < length (h ++ [image]))%nat)
      by (rewrite length_app; simpl; lia).
    pose proof (override_patches (h ++ [image]) (length h) 1 noun Hlt) as O1.
    change (Z.of_nat 1) with 1 in O1. rewrite Hnew in O1.
    unfold patched.
    destruct (override (h ++ [image]) (length h) 1 noun) as [h1|e1].
    2:{ intros [= <- <- _]. intros j _. cbn [memory]. rewrite Hnew.
        rewrite (patch_short 1) by exact O1.
        now rewrite patch_short by lia. }
    destruct O1 as (Hlt1 & Hd1).
    pose proof (override_patches h1 (length h) 2 verb Hlt1) as O2.
    change (Z.of_nat 2) with 2 in O2. rewrite Hd1 in O2.
    destruct (override h1 (length h) 2 verb) as [h2|e2].
    2:{ intros [= <- <- _]. intros j _. cbn [memory]. rewrite Hd1.
        now rewrite (patch_short 2) by exact O2. }
    destruct O2 as (Hlt2 & Hd2).
    intros Hrun.
    refine (run_keeps_untouched image _ fuel Hv Hnonneg _ _ _ _ _ _ _ _ _ Hrun).
    + intros j Hj. rewrite !patch_lookup_ne by lia. reflexivity.
    + simpl. lia.
    + reflexivity.
    + intros j _. cbn [memory]. now rewrite Hd2.
Qed.

(** The check does not look at the sign of a target: the image below
    gets the third message, and its first turn writes over the opcode at
    address 4 all the same, through the index -5. *)
Lemma negative_target_slips_through :
  self_modifying [1; 0; 0; -5; 99; 0; 0; 0; 0] = NotSelfModifying /\
  step [[1; 0; 0; -5; 99; 0; 0; 0; 0]] (mkCPU 0 0)
  = Return ([[1; 0; 0; -5; 2; 0; 0; 0; 0]], mkCPU 0 4).
Proof. split; vm_compute; reflexivity. Qed.

End Day02SelfModifying.

Lemma arithmetic_turn_witness :
  let cpu := Day05.mkCPU [1002; 4; 3; 4; 33] 0 in
  let cpu' := Day05.mkCPU [1002; 4; 3; 4; 99] 4 in
  exists b x y target,
    Day05.CPU_getitem Day05.base_opcodes cpu 1002 = Return b /\
    Day05.bound_args b (Day05.memory cpu) = Return [x; y] /\
    getitem (Day05.memory cpu) (Day05.pos cpu + 3) = Return target /\
    setitem (Day05.memory cpu) target
      (if 1002 mod 100 =? 1 then x + y else x * y)
      = Return (Day05.memory cpu') /\
    Day05.pos cpu' = Day05.pos cpu + 4 /\
    Day05.empty_world = Day05.empty_world.
Proof.
  intros cpu cpu'.
  apply (arithmetic_turn Day05.base_opcodes cpu Day05.empty_world cpu'
           Day05.empty_world 1002).
  - vm_compute; reflexivity.
  - vm_compute; reflexivity.
  - reflexivity.
  - right. reflexivity.
  - vm_compute; reflexivity.
Defined.

Lemma input_turn_witness :
  let cpu := Day05.mkCPU [103; 0; 99] 0 in
  Day05.step (Day05.test_opcodes 7) cpu Day05.empty_world
  = Day05.Ok (Day05.mkCPU [7; 0; 99] (Day05.pos cpu + 2)) Day05.empty_world.
Proof.
  intros cpu.
  destruct (input_turn (Day05.test_opcodes 7) cpu Day05.empty_world 103 7)
    as (Hdone & _).
  - reflexivity.
  - vm_compute; reflexivity.
  - apply (Hdone 0); reflexivity.
Defined.

Lemma output_turn_witness :
  let cpu := Day05.mkCPU [104; 42; 99] 0 in
  let cpu' := Day05.mkCPU [104; 42; 99] 2 in
  let w' := Day05.mkWorld [] [] [42] in
  exists b x,
    Day05.CPU_getitem (Day05.test_opcodes 7) cpu 104 = Return b /\
    Day05.bound_args b (Day05.memory cpu) = Return [x] /\
    Day05.memory cpu' = Day05.memory cpu /\
    Day05.pos cpu' = Day05.pos cpu + 2 /\
    Day05.stdin w' = Day05.stdin Day05.empty_world /\
    (Day05.Instruction_ Day05.outputs_append 1 false
     = Day05.Instruction_ Day05.outputs_append 1 false ->
       Day05.outputs w' = Day05.outputs Day05.empty_world ++ [x] /\
       Day05.stdout w' = Day05.stdout Day05.empty_world) /\
    (Day05.Instruction_ Day05.outputs_append 1 false
     = Day05.Instruction_ Day05.py_print 1 false ->
       Day05.stdout w' = Day05.stdout Day05.empty_world ++ [[x]] /\
       Day05.outputs w' = Day05.outputs Day05.empty_world).
Proof.
  intros cpu cpu' w'.
  apply (output_turn (Day05.test_opcodes 7) cpu Day05.empty_world cpu' w' 104
           (Day05.Instruction_ Day05.outputs_append 1 false)).
  - reflexivity.
  - vm_compute; reflexivity.
  - left. reflexivity.
  - vm_compute; reflexivity.
Defined.

Lemma execute_terminates_witness :
  Day02.Returned 3500 <> Day02.OutOfFuel /\
  8 mod 4 = 0 /\
  0 <= 8 <= Z.of_nat (length (Day02.deref [Day02.test] 0%nat)) /\
  length [3500; 9; 10; 70; 2; 3; 11; 0; 99; 30; 40; 50]
  = length (Day02.deref [Day02.test] 0%nat).
Proof.
  apply (execute_terminates 4 [Day02.test] (Day02.mkCPU 0 0) 0%nat None None
           ltac:(simpl; lia)
           [Day02.test; [3500; 9; 10; 70; 2; 3; 11; 0; 99; 30; 40; 50]]
           (Day02.mkCPU 1 8) (Day02.Returned 3500)).
  vm_compute; reflexivity.
Defined.

Lemma overrides_patch_the_copy_witness :
  observe (Day02.execute 3 [Day02.test] (Day02.mkCPU 0 0) 0%nat (Some 4) (Some 5))
  = observe (Day02.execute 3 [<[2%nat:=5]> (<[1%nat:=4]> Day02.test)]
               (Day02.mkCPU 0 0) 0%nat None None).
Proof.
  destruct (overrides_patch_the_copy 3 [Day02.test] (Day02.mkCPU 0 0) 0%nat
              Day02.test 4 5 eq_refl) as (Hpatch & _).
  apply Hpatch. simpl. lia.
Defined.

Lemma day05_runs_day02_programs_witness :
  Day05.execute Day05.base_opcodes 3 Day02.test Day05.empty_world
  = Day05.Returned
      (by_value [Day02.test; [3500; 9; 10; 70; 2; 3; 11; 0; 99; 30; 40; 50]]
         (Day02.mkCPU 1 8)) Day05.empty_world /\
  getitem
    (Day05.memory
       (by_value [Day02.test; [3500; 9; 10; 70; 2; 3; 11; 0; 99; 30; 40; 50]]
          (Day02.mkCPU 1 8))) 0 = Return 3500.
Proof.
  assert (H1 : Day05.base_opcodes !! 1
               = Some (Day05.Instruction_ Day05.op_add 2 true))
    by (vm_compute; reflexivity).
  assert (H2 : Day05.base_opcodes !! 2
               = Some (Day05.Instruction_ Day05.op_mul 2 true))
    by (vm_compute; reflexivity).
  assert (H99 : Day05.base_opcodes !! 99
                = Some (Day05.Instruction_ Day05.Halt_halt 0 false))
    by (vm_compute; reflexivity).
  destruct (day05_runs_day02_programs Day05.base_opcodes H1 H2 H99)
    as (_ & Hexec).
  apply (Hexec 3%nat [Day02.test] (Day02.mkCPU 0 0) 0%nat Day02.test
           Day05.empty_world
           [Day02.test; [3500; 9; 10; 70; 2; 3; 11; 0; 99; 30; 40; 50]]
           (Day02.mkCPU 1 8) 3500).
  - reflexivity.
  - vm_compute; reflexivity.
Defined.

Lemma bruteforce_first_match_witness :
  let h := [[1; 0; 0; 0; 99]] in
  let h' := [[1; 0; 0; 0; 99]; [2; 0; 0; 0; 99]] in
  Day02Part2.bruteforce 2 2 h 0%nat = (h', Day02Part2.Answer 0) /\
  h' !! 0%nat = Some [1; 0; 0; 0; 99].
Proof.
  intros h h'.
  assert (H : Day02Part2.bruteforce 2 2 h 0%nat = (h', Day02Part2.Answer 0))
    by (vm_compute; reflexivity).
  split; [exact H|].
  destruct (bruteforce_first_match 2 2 h 0%nat [1; 0; 0; 0; 99] h'
              (Day02Part2.Answer 0) eq_refl H) as (Himage & _).
  exact Himage.
Defined.

Lemma check_is_sound_without_negative_targets_witness :
  let h' := [[1; 0; 0; 3; 99]; [1; 0; 0; 2; 99]] in
  Day02.execute 2 [[1; 0; 0; 3; 99]] (Day02.mkCPU 0 0) 0%nat None None
  = (h', Day02.mkCPU 1 4, Day02.Returned 1) /\
  untouched_from (patched None None [1; 0; 0; 3; 99]) h' (Day02.mkCPU 1 4).
Proof.
  intros h'.
  assert (H : Day02.execute 2 [[1; 0; 0; 3; 99]] (Day02.mkCPU 0 0) 0%nat None None
              = (h', Day02.mkCPU 1 4, Day02.Returned 1))
    by (vm_compute; reflexivity).
  split; [exact H|].
  destruct (check_is_sound_without_negative_targets [1; 0; 0; 3; 99])
    as (_ & Hexec).
  - vm_compute; reflexivity.
  - intros t Ht. simpl in Ht. apply list_elem_of_singleton in Ht. lia.
  - exact (Hexec 2%nat [[1; 0; 0; 3; 99]] (Day02.mkCPU 0 0) 0%nat None None h'
             (Day02.mkCPU 1 4) (Day02.Returned 1) eq_refl H).
Defined.
